(** * Analyse-coin-bot: the Solana token analyzer of [bot.py]

    A shallow embedding of [SolanaAnalyzer] (identifier validation, the five
    data-source coroutines, the holder fallback chain, the merge step, the
    scoring rubric and the report) and of the handlers of [TelegramBot],
    together with the properties its specification states and further
    properties read off the code.

    Modelling conventions.
    - Python [int] is [Z].  Python [float] is modelled by exact rational
      arithmetic ([Q]): rounding error, overflow, infinities and NaN are
      outside the model; comparisons of a float with an integer literal are
      exact in Python and in the model.  Equalities between computed floats
      are stated with [==] ([Qeq]).
    - A Python [str] is a [string]; a decoded JSON document is a value of
      [json]; a Python [dict] that is used as a struct is a record.
    - A coroutine is a computation in the monad [M]: it threads the log of
      the network calls issued so far and either returns or raises.
      [asyncio.gather] runs its coroutines in argument order.
    - [logger] calls have no effect on results and are left out. *)

From Stdlib Require Import ZArith QArith Qabs Qround List String Ascii Bool Lia Lqa
  Permutation Sorted DecimalString.
Import ListNotations.
Local Open Scope string_scope.
Local Open Scope Z_scope.
Local Open Scope list_scope.

Set Implicit Arguments.
Set Warnings "-register-all".

(** ** Decoded JSON *)

Module Json.

(** What [await response.json()] returns: [None], [bool], [int], [float],
    [str], [list] or [dict]. *)

Inductive json : Type :=
| JNull
| JBool (b : bool)
| JInt (n : Z)
| JFloat (x : Q)
| JStr (s : string)
| JList (l : list json)
| JObj (kvs : list (string * json)).

(** Lookup in a decoded object; a decoded object has each key once. *)
Fixpoint assoc (k : string) (kvs : list (string * json)) : option json :=
  match kvs with
  | [] => None
  | (k', v) :: rest => if String.eqb k k' then Some v else assoc k rest
  end.

(** Truth value of an object in a condition ([if x:], [x or y]). *)
Definition truthy (v : json) : bool :=
  match v with
  | JNull => false
  | JBool b => b
  | JInt n => negb (n =? 0)
  | JFloat x => negb (Qeq_bool x 0)
  | JStr s => negb (String.eqb s "")
  | JList l => match l with [] => false | _ => true end
  | JObj kvs => match kvs with [] => false | _ => true end
  end.

End Json.
Export Json.

(** ** The analysis dictionary

    [analyze_token] builds a [Dict[str, Any]] and [calculate_score] reads it
    with [data.get(key, default)]; a key may be absent, so every field is
    optional. *)

Record analysis_data : Type := {
  ad_mint : option string;
  ad_name : option json;
  ad_symbol : option json;
  ad_created_at : option json;
  ad_pools : option Z;
  ad_liquidity : option Q;
  ad_volume_24h : option Q;
  ad_price_usd : option Q;
  ad_price_change_24h : option Q;
  ad_market_cap : option Q;
  ad_supply : option Z;
  ad_decimals : option Z;
  ad_holders : option Z;
  ad_top_10_share : option Q;
  ad_rug_pull_risk : option bool;
  ad_score : option Z;
  ad_explanations : option (list string)
}.

(** [d.get(key, default)] on an optional field. *)
Definition dict_get {A : Type} (field : option A) (default : A) : A :=
  match field with
  | Some v => v
  | None => default
  end.

(** The dictionary with no key at all. *)
Definition empty_data : analysis_data :=
  {| ad_mint := None; ad_name := None; ad_symbol := None; ad_created_at := None;
     ad_pools := None; ad_liquidity := None; ad_volume_24h := None;
     ad_price_usd := None; ad_price_change_24h := None; ad_market_cap := None;
     ad_supply := None; ad_decimals := None; ad_holders := None;
     ad_top_10_share := None; ad_rug_pull_risk := None;
     ad_score := None; ad_explanations := None |}.

(** ** ScoringEngine: [calculate_score] *)

Module Scoring.

(** The two locals [score] and [explanations] of [calculate_score]. *)
Definition acc : Type := (Z * list string)%type.

(** [score += n; explanations.append(line)] *)
Definition award (st : acc) (n : Z) (line : string) : acc :=
  (fst st + n, snd st ++ [line]).

(** [explanations.append(line)] alone (the [else] bands). *)
Definition explain (st : acc) (line : string) : acc :=
  (fst st, snd st ++ [line]).

Definition Qge_bool (x y : Q) : bool := Qle_bool y x.

(** # Pools (2 points) *)
Definition score_pools (data : analysis_data) (st : acc) : acc :=
  let pools := dict_get (ad_pools data) 0 in
  if pools >=? 5 then
    award st 2 "🔢 **Pools** : +2/2 pts (5+ pools = excellente liquidité)"
  else if pools >=? 2 then
    award st 1 "🔢 **Pools** : +1/2 pts (2-4 pools = bonne liquidité)"
  else
    explain st "🔢 **Pools** : +0/2 pts (< 2 pools = liquidité faible)".

(** # Volume 24h (3 points) *)
Definition score_volume (data : analysis_data) (st : acc) : acc :=
  let volume := dict_get (ad_volume_24h data) 0%Q in
  if Qge_bool volume 1000000 then
    award st 3 "📊 **Volume 24h** : +3/3 pts (1M$+ = très actif)"
  else if Qge_bool volume 100000 then
    award st 2 "📊 **Volume 24h** : +2/3 pts (100K$+ = actif)"
  else if Qge_bool volume 10000 then
    award st 1 "📊 **Volume 24h** : +1/3 pts (10K$+ = peu actif)"
  else
    explain st "📊 **Volume 24h** : +0/3 pts (< 10K$ = très peu actif)".

(** # Liquidité (3 points) *)
Definition score_liquidity (data : analysis_data) (st : acc) : acc :=
  let liquidity := dict_get (ad_liquidity data) 0%Q in
  if Qge_bool liquidity 1000000 then
    award st 3 "💧 **Liquidité** : +3/3 pts (1M$+ = excellente)"
  else if Qge_bool liquidity 100000 then
    award st 2 "💧 **Liquidité** : +2/3 pts (100K$+ = bonne)"
  else if Qge_bool liquidity 10000 then
    award st 1 "💧 **Liquidité** : +1/3 pts (10K$+ = faible)"
  else
    explain st "💧 **Liquidité** : +0/3 pts (< 10K$ = très faible)".

(** # Variation de prix (2 points) *)
Definition score_stability (data : analysis_data) (st : acc) : acc :=
  let price_change := Qabs (dict_get (ad_price_change_24h data) 0%Q) in
  if Qle_bool price_change 5 then
    award st 2 "📈 **Stabilité** : +2/2 pts (±5% = très stable)"
  else if Qle_bool price_change 15 then
    award st 1 "📈 **Stabilité** : +1/2 pts (±15% = modérément stable)"
  else
    explain st "📈 **Stabilité** : +0/2 pts (>15% = très volatil)".

(** # Market cap (3 points) *)
Definition score_market_cap (data : analysis_data) (st : acc) : acc :=
  let market_cap := dict_get (ad_market_cap data) 0%Q in
  if Qge_bool market_cap 10000000 then
    award st 3 "🏦 **Market Cap** : +3/3 pts (10M$+ = large cap)"
  else if Qge_bool market_cap 1000000 then
    award st 2 "🏦 **Market Cap** : +2/3 pts (1M$+ = mid cap)"
  else if Qge_bool market_cap 100000 then
    award st 1 "🏦 **Market Cap** : +1/3 pts (100K$+ = small cap)"
  else
    explain st "🏦 **Market Cap** : +0/3 pts (< 100K$ = micro cap)".

(** # Holders (3 points) *)
Definition score_holders (data : analysis_data) (st : acc) : acc :=
  let holders := dict_get (ad_holders data) 0 in
  if holders >=? 10000 then
    award st 3 "👥 **Holders** : +3/3 pts (10K+ = très adopté)"
  else if holders >=? 1000 then
    award st 2 "👥 **Holders** : +2/3 pts (1K+ = bien adopté)"
  else if holders >=? 100 then
    award st 1 "👥 **Holders** : +1/3 pts (100+ = peu adopté)"
  else
    explain st "👥 **Holders** : +0/3 pts (< 100 = très peu adopté)".

(** # Top 10 share (2 points) - Plus c'est bas, mieux c'est *)
Definition score_distribution (data : analysis_data) (st : acc) : acc :=
  let top_10_share := dict_get (ad_top_10_share data) 100%Q in
  if Qle_bool top_10_share 20 then
    award st 2 "🧮 **Distribution** : +2/2 pts (≤20% = très décentralisé)"
  else if Qle_bool top_10_share 50 then
    award st 1 "🧮 **Distribution** : +1/2 pts (≤50% = moyennement décentralisé)"
  else
    explain st "🧮 **Distribution** : +0/2 pts (>50% = très centralisé)".

(** # Rug-pull (2 points) *)
Definition score_security (data : analysis_data) (st : acc) : acc :=
  if negb (dict_get (ad_rug_pull_risk data) true) then
    award st 2 "🚨 **Sécurité** : +2/2 pts (autorités révoquées = sécurisé)"
  else
    explain st "🚨 **Sécurité** : +0/2 pts (autorités actives = risque élevé)".

(** The body of [calculate_score] up to its [return]: the eight blocks in
    source order on [score = 0], [explanations = []]. *)
Definition tally (data : analysis_data) : acc :=
  let st : acc := (0, []) in
  let st := score_pools data st in
  let st := score_volume data st in
  let st := score_liquidity data st in
  let st := score_stability data st in
  let st := score_market_cap data st in
  let st := score_holders data st in
  let st := score_distribution data st in
  let st := score_security data st in
  st.

(** [return min(score, 20), explanations] *)
Definition calculate_score (data : analysis_data) : Z * list string :=
  let st := tally data in
  (Z.min (fst st) 20, snd st).

End Scoring.
Export Scoring.

(** ** Exceptions *)

(** The exception classes the analyzer can meet; all derive from
    [Exception], so [except Exception] catches each of them. *)
Inductive exn : Type :=
| AttributeError
| TypeError
| ValueError
| KeyError
| ClientError
| JSONDecodeError.

Inductive exc (A : Type) : Type :=
| Val (a : A)
| Raise (e : exn).
Arguments Raise {A} e.

Definition exc_bind {A B : Type} (c : exc A) (k : A -> exc B) : exc B :=
  match c with
  | Val a => k a
  | Raise e => Raise e
  end.

Notation "'let*' x ':=' c 'in' k" := (exc_bind c (fun x => k))
  (at level 10, x name, c at level 100, k at level 200).

(** Evaluate [f] on each element in order, stopping at the first raise. *)
Fixpoint exc_map {A B : Type} (f : A -> exc B) (l : list A) : exc (list B) :=
  match l with
  | [] => Val []
  | a :: rest =>
      let* b := f a in
      let* bs := exc_map f rest in
      Val (b :: bs)
  end.

(** ** Library functions taken as given

    [base58.b58decode] and the string parsers behind [float(str)] and
    [int(str)] are not code of this repository. *)
Class Builtins : Type := {
  (** [base58.b58decode(s)]: the decoded bytes, [None] when it raises *)
  b58decode : string -> option (list Z);
  (** [float(s)] for a [str]: [None] when it raises [ValueError] *)
  float_of_str : string -> option Q;
  (** [int(s)] for a [str]: [None] when it raises [ValueError] *)
  int_of_str : string -> option Z
}.

(** ** Python operations on decoded JSON *)

Module Py.

(** [o.get(k, default)]: only a [dict] has the method. *)
Definition get (o : json) (k : string) (default : json) : exc json :=
  match o with
  | JObj kvs => Val (match assoc k kvs with Some v => v | None => default end)
  | _ => Raise AttributeError
  end.

(** [o[k]] with a [str] key. *)
Definition getitem (o : json) (k : string) : exc json :=
  match o with
  | JObj kvs => match assoc k kvs with Some v => Val v | None => Raise KeyError end
  | _ => Raise TypeError
  end.

(** The elements a [for] loop or a generator visits. *)
Definition iter (o : json) : exc (list json) :=
  match o with
  | JList l => Val l
  | JObj kvs => Val (map (fun kv => JStr (fst kv)) kvs)
  | JStr s => Val (map (fun c => JStr (String c EmptyString)) (list_ascii_of_string s))
  | _ => Raise TypeError
  end.

(** [len(o)] *)
Definition len (o : json) : exc Z :=
  match o with
  | JList l => Val (Z.of_nat (List.length l))
  | JObj kvs => Val (Z.of_nat (List.length kvs))
  | JStr s => Val (Z.of_nat (String.length s))
  | _ => Raise TypeError
  end.

Section Conversions.
Context {B : Builtins}.

(** [float(v)] *)
Definition float (v : json) : exc Q :=
  match v with
  | JInt n => Val (inject_Z n)
  | JFloat x => Val x
  | JBool b => Val (if b then 1%Q else 0%Q)
  | JStr s => match float_of_str s with Some x => Val x | None => Raise ValueError end
  | _ => Raise TypeError
  end.

(** [int(v)]: a float is truncated toward zero. *)
Definition int (v : json) : exc Z :=
  match v with
  | JInt n => Val n
  | JFloat x => Val (Z.quot (Qnum x) (Zpos (Qden x)))
  | JBool b => Val (if b then 1 else 0)
  | JStr s => match int_of_str s with Some n => Val n | None => Raise ValueError end
  | _ => Raise TypeError
  end.

End Conversions.

(** [sum(xs)]: from [0], left to right. *)
Definition sum (xs : list Q) : Q := fold_left Qplus xs 0%Q.

Definition Qgt_bool (x y : Q) : bool := negb (Qle_bool x y).

(** The integer nearest to [x], ties to the even one. *)
Definition round_half_even (x : Q) : Z :=
  let f := Qfloor x in
  match (x - inject_Z f ?= 1 # 2)%Q with
  | Lt => f
  | Gt => f + 1
  | Eq => if Z.even f then f else f + 1
  end.

(** [round(x, 2)] *)
Definition round2 (x : Q) : Q := (inject_Z (round_half_even (x * 100)) / 100)%Q.

(** [sorted(l, key=key, reverse=True)]: stable, largest key first.  An
    element goes in front of the first one whose key is not larger. *)
Fixpoint insert_desc {A : Type} (key : A -> Q) (x : A) (l : list A) : list A :=
  match l with
  | [] => [x]
  | y :: rest =>
      if Qgt_bool (key y) (key x) then y :: insert_desc key x rest
      else x :: y :: rest
  end.

Definition sort_desc {A : Type} (key : A -> Q) (l : list A) : list A :=
  fold_right (insert_desc key) [] l.

End Py.

(** ** The network and the coroutine monad *)

(** One constructor per request the analyzer issues: the URL and, for the
    JSON-RPC servers, the method. *)
Inductive endpoint : Type :=
| DexScreenerTokens          (* GET  DEXSCREENER_URL.format(mint) *)
| HeliusGetAsset             (* POST HELIUS_RPC_URL, getAsset *)
| HeliusGetTokenAccounts     (* POST HELIUS_RPC_URL, getTokenAccounts *)
| SolanaGetTokenSupply       (* POST SOLANA_RPC_URL, getTokenSupply *)
| SolanaGetProgramAccounts   (* POST SOLANA_RPC_URL, getProgramAccounts *)
| SolscanTokenHolders        (* GET  api.solscan.io/token/holders *)
| SolanaGetAccountInfo.      (* POST SOLANA_RPC_URL, getAccountInfo *)

Record call : Type := { call_endpoint : endpoint; call_mint : string }.

Definition endpoint_eq_dec (a b : endpoint) : {a = b} + {a <> b}.
Proof. decide equality. Defined.

Definition call_eq_dec (a b : call) : {a = b} + {a <> b}.
Proof. decide equality; [apply string_dec | apply endpoint_eq_dec]. Defined.

(** What [async with self.session.get/post(...) as response] gives: the
    status, and what [await response.json()] returns or raises. *)
Record http_response : Type := { status : Z; json_body : exc json }.

(** The outside world: the outcome of the [n]-th repetition (from 0) of a
    request; [Raise] is a transport failure of [session.get]/[session.post].
    The five coroutines issue pairwise different requests, so an outcome does
    not depend on how their calls interleave. *)
Definition network : Type := call -> nat -> exc http_response.

(** A coroutine: from the log of the calls issued so far to its outcome and
    the extended log.  The log survives a raise. *)
Definition M (A : Type) : Type := list call -> exc A * list call.

Definition ret {A : Type} (a : A) : M A := fun log => (Val a, log).

Definition bind {A B : Type} (c : M A) (k : A -> M B) : M B :=
  fun log =>
    match c log with
    | (Val a, log') => k a log'
    | (Raise e, log') => (Raise e, log')
    end.

Notation "x <- c ;; k" := (bind c (fun x => k))
  (at level 61, c at next level, right associativity).

(** A pure computation that may raise, inside a coroutine. *)
Definition lift {A : Type} (c : exc A) : M A := fun log => (c, log).

(** [try: body / except Exception as e: handler] *)
Definition try_except {A : Type} (body : M A) (handler : exn -> M A) : M A :=
  fun log =>
    match body log with
    | (Val a, log') => (Val a, log')
    | (Raise e, log') => handler e log'
    end.

(** One task of [asyncio.gather(..., return_exceptions=True)]: it never
    raises into the caller, an exception becomes the task's result. *)
Definition settle {A : Type} (c : M A) : M (exc A) :=
  fun log => let (r, log') := c log in (Val r, log').

(** [d.get(key, default)] on a result of [gather]: a dictionary built by a
    source has every key; an exception object has no [get]. *)
Definition result_get {R A : Type} (r : exc R) (field : R -> A) : exc A :=
  match r with
  | Val d => Val (field d)
  | Raise _ => Raise AttributeError
  end.

(** ** The dictionaries the sources return *)

Record dex_data : Type := {
  dex_pools : Z;
  dex_price_usd : Q;
  dex_price_change_24h : Q;
  dex_volume_24h : Q;
  dex_liquidity : Q
}.

Record metadata : Type := {
  md_name : json;
  md_symbol : json;
  md_supply : Z;
  md_decimals : Z;
  md_created_at : json
}.

Record supply_info : Type := { si_supply : Z; si_decimals : Z }.

Record holders_info : Type := { hi_holders : Z; hi_top_10_share : Q }.

(** An entry of [holders_data] in strategies A and C. *)
Record holder : Type := { h_address : json; h_amount : Q }.

(** What [analyze_token] returns: [{"error": ...}] or the analysis. *)
Inductive analysis_error : Type :=
| MintInvalide                (* "Mint address invalide" *)
| ErreurAnalyse (e : exn).    (* f"Erreur lors de l'analyse: {str(e)}" *)

Inductive analysis_result : Type :=
| ErrorDict (err : analysis_error)
| AnalysisDict (data : analysis_data).

(** ** [SolanaAnalyzer] *)

Section SolanaAnalyzer.
Context {B : Builtins} (net : network).

(** [self.session.get(url)] / [self.session.post(url, json=payload)] *)
Definition request (ep : endpoint) (mint : string) : M http_response :=
  fun log =>
    let c := {| call_endpoint := ep; call_mint := mint |} in
    (net c (count_occ call_eq_dec log c), log ++ [c]).

(** *** IdentifierValidator *)

Definition is_valid_mint (mint : string) : bool :=
  let n := Z.of_nat (String.length mint) in
  if String.eqb mint "" || (n <? 32) || (n >? 44) then false
  else
    match b58decode mint with
    | Some _ => true
    | None => false
    end.

(** *** MarketDataSource *)

(** The [for pair in pairs] loop that picks the first priced pr. *)
Fixpoint first_price (pairs : list json) (price_usd price_change_24h : Q)
  : exc (Q * Q) :=
  match pairs with
  | [] => Val (price_usd, price_change_24h)
  | pr :: rest =>
      let* p := Py.get pr "priceUsd" JNull in
      if truthy p then
        let* p := Py.getitem pr "priceUsd" in
        let* price_usd := Py.float p in
        let* change := Py.get pr "priceChange" (JObj []) in
        let* h24 := Py.get change "h24" (JInt 0) in
        let* price_change_24h := Py.float h24 in
        Val (price_usd, price_change_24h)
      else first_price rest price_usd price_change_24h
  end.

(** [float(pair.get("volume", {}).get("h24", 0))] *)
Definition pair_volume (pr : json) : exc Q :=
  let* v := Py.get pr "volume" (JObj []) in
  let* h24 := Py.get v "h24" (JInt 0) in
  Py.float h24.

(** [float(pair.get("liquidity", {}).get("usd", 0))] *)
Definition pair_liquidity (pr : json) : exc Q :=
  let* l := Py.get pr "liquidity" (JObj []) in
  let* usd := Py.get l "usd" (JInt 0) in
  Py.float usd.

(** The [try] block after [data = await response.json()]; [None] when it
    ends without a [return]. *)
Definition dexscreener_payload (data : json) : exc (option dex_data) :=
  let* p := Py.get data "pairs" JNull in
  if truthy p then
    let* pairs := Py.getitem data "pairs" in
    let* items := Py.iter pairs in
    let* volumes := exc_map pair_volume items in
    let total_volume := Py.sum volumes in
    let* liquidities := exc_map pair_liquidity items in
    let total_liquidity := Py.sum liquidities in
    let* price := first_price items 0 0 in
    let* n := Py.len pairs in
    Val (Some {| dex_pools := n;
                 dex_price_usd := fst price;
                 dex_price_change_24h := snd price;
                 dex_volume_24h := total_volume;
                 dex_liquidity := total_liquidity |})
  else Val None.

Definition dex_default : dex_data :=
  {| dex_pools := 0; dex_price_usd := 0; dex_price_change_24h := 0;
     dex_volume_24h := 0; dex_liquidity := 0 |}.

Definition get_dexscreener_data (mint : string) : M dex_data :=
  r <- try_except
         (response <- request DexScreenerTokens mint ;;
          if status response =? 200 then
            data <- lift (json_body response) ;;
            lift (dexscreener_payload data)
          else ret None)
         (fun e => ret None) ;;
  match r with
  | Some d => ret d
  | None => ret dex_default
  end.

(** *** MetadataSource *)

Definition metadata_payload (data : json) : exc (option metadata) :=
  let* result := Py.get data "result" (JObj []) in
  let* token_info := Py.get result "token_info" (JObj []) in
  let* s := Py.get token_info "supply" (JInt 0) in
  let* supply := Py.int s in
  let* d := Py.get token_info "decimals" (JInt 0) in
  let* decimals := Py.int d in
  let* content := Py.get result "content" (JObj []) in
  let* metadata := Py.get content "metadata" (JObj []) in
  let* name := Py.get metadata "name" (JStr "Unknown") in
  let* symbol := Py.get metadata "symbol" (JStr "Unknown") in
  let created_at := JNull in
  let* _ := Py.get result "mint_extensions" JNull in
  Val (Some {| md_name := name; md_symbol := symbol; md_supply := supply;
               md_decimals := decimals; md_created_at := created_at |}).

Definition metadata_default : metadata :=
  {| md_name := JStr "Unknown"; md_symbol := JStr "Unknown"; md_supply := 0;
     md_decimals := 0; md_created_at := JNull |}.

Definition get_token_metadata (mint : string) : M metadata :=
  r <- try_except
         (response <- request HeliusGetAsset mint ;;
          if status response =? 200 then
            data <- lift (json_body response) ;;
            lift (metadata_payload data)
          else ret None)
         (fun e => ret None) ;;
  match r with
  | Some d => ret d
  | None => ret metadata_default
  end.

(** *** SupplyDataSource *)

Definition supply_payload (data : json) : exc (option supply_info) :=
  let* result := Py.get data "result" (JObj []) in
  let* value := Py.get result "value" (JObj []) in
  let* a := Py.get value "amount" (JInt 0) in
  let* supply := Py.int a in
  let* d := Py.get value "decimals" (JInt 0) in
  let* decimals := Py.int d in
  Val (Some {| si_supply := supply; si_decimals := decimals |}).

Definition supply_default : supply_info := {| si_supply := 0; si_decimals := 0 |}.

Definition get_token_supply_info (mint : string) : M supply_info :=
  r <- try_except
         (response <- request SolanaGetTokenSupply mint ;;
          if status response =? 200 then
            data <- lift (json_body response) ;;
            lift (supply_payload data)
          else ret None)
         (fun e => ret None) ;;
  match r with
  | Some d => ret d
  | None => ret supply_default
  end.

(** *** HolderDistributionResolver *)

(** Lines 207-223 and, word for word, 277-293: from the collected
    [holders_data] to the returned dictionary; [None] when no holder was
    collected and the block ends without a [return]. *)
Definition holders_metrics (holders_data : list holder) : option holders_info :=
  let total_holders := Z.of_nat (List.length holders_data) in
  if total_holders >? 0 then
    let holders_data := Py.sort_desc h_amount holders_data in
    let top_10 := firstn 10 holders_data in
    let total_supply := Py.sum (map h_amount holders_data) in
    let top_10_amount := Py.sum (map h_amount top_10) in
    let top_10_share :=
      if Py.Qgt_bool total_supply 0
      then (top_10_amount / total_supply * 100)%Q else 0%Q in
    Some {| hi_holders := total_holders;
            hi_top_10_share := Py.round2 top_10_share |}
  else None.

(** Strategy A, the loop over [token_accounts]. *)
Fixpoint helius_collect (accounts : list json) (holders_data : list holder)
  : exc (list holder) :=
  match accounts with
  | [] => Val holders_data
  | account :: rest =>
      let* a := Py.get account "amount" (JInt 0) in
      let* amount := Py.float a in
      if Py.Qgt_bool amount 0 then
        let* address := Py.get account "address" (JStr "") in
        helius_collect rest
          (holders_data ++ [{| h_address := address; h_amount := amount |}])
      else helius_collect rest holders_data
  end.

Definition helius_payload (data : json) : exc (option holders_info) :=
  let* result := Py.get data "result" (JObj []) in
  let* token_accounts := Py.get result "token_accounts" (JList []) in
  if truthy token_accounts then
    let* accounts := Py.iter token_accounts in
    let* holders_data := helius_collect accounts [] in
    Val (holders_metrics holders_data)
  else Val None.

(** Strategy C, the loop over [result]. *)
Fixpoint fallback_collect (accounts : list json) (holders_data : list holder)
  : exc (list holder) :=
  match accounts with
  | [] => Val holders_data
  | account :: rest =>
      let* account_data := Py.get account "account" (JObj []) in
      let* d := Py.get account_data "data" (JObj []) in
      let* parsed_data := Py.get d "parsed" (JObj []) in
      let* info := Py.get parsed_data "info" (JObj []) in
      let* token_amount := Py.get info "tokenAmount" (JObj []) in
      let* a := Py.get token_amount "amount" (JInt 0) in
      let* amount := Py.float a in
      if Py.Qgt_bool amount 0 then
        let* address := Py.get account "pubkey" (JStr "") in
        fallback_collect rest
          (holders_data ++ [{| h_address := address; h_amount := amount |}])
      else fallback_collect rest holders_data
  end.

Definition fallback_payload (data : json) : exc (option holders_info) :=
  let* result := Py.get data "result" (JList []) in
  let* accounts := Py.iter result in
  let* holders_data := fallback_collect accounts [] in
  Val (holders_metrics holders_data).

Definition holders_zero : holders_info :=
  {| hi_holders := 0; hi_top_10_share := 0 |}.

Definition get_holders_info_fallback (mint : string) : M holders_info :=
  r <- try_except
         (response <- request SolanaGetProgramAccounts mint ;;
          if status response =? 200 then
            data <- lift (json_body response) ;;
            lift (fallback_payload data)
          else ret None)
         (fun e => ret None) ;;
  match r with
  | Some d => ret d
  | None => ret holders_zero
  end.

Definition get_holders_info_helius (mint : string) : M holders_info :=
  r <- try_except
         (response <- request HeliusGetTokenAccounts mint ;;
          if status response =? 200 then
            data <- lift (json_body response) ;;
            lift (helius_payload data)
          else ret None)
         (fun e => ret None) ;;
  match r with
  | Some d => ret d
  | None => get_holders_info_fallback mint
  end.

(** Strategy B.  The shape test: a [dict] with a ["data"] key, or a list. *)
Definition solscan_select (data : json) : option json :=
  match data with
  | JObj kvs => assoc "data" kvs
  | JList _ => Some data
  | _ => None
  end.

(** [float(x.get("amount", 0))], the sort key and the summand. *)
Definition solscan_amount (x : json) : exc Q :=
  let* a := Py.get x "amount" (JInt 0) in
  Py.float a.

Definition solscan_payload (data : json) : exc (option holders_info) :=
  match solscan_select data with
  | None => Val (Some holders_zero)
  | Some holders_data =>
      if truthy holders_data then
        let* total_holders := Py.len holders_data in
        let top_10_share := 0%Q in
        let* top_10_share :=
          if total_holders >? 0 then
            let* items := Py.iter holders_data in
            let* keys := exc_map solscan_amount items in
            let sorted_holders :=
              map fst (Py.sort_desc snd (combine items keys)) in
            let top_10 := firstn 10 sorted_holders in
            let* amounts := exc_map solscan_amount items in
            let total_supply := Py.sum amounts in
            let* top_amounts := exc_map solscan_amount top_10 in
            let top_10_amount := Py.sum top_amounts in
            if Py.Qgt_bool total_supply 0
            then Val (top_10_amount / total_supply * 100)%Q
            else Val top_10_share
          else Val top_10_share in
        Val (Some {| hi_holders := total_holders;
                     hi_top_10_share := Py.round2 top_10_share |})
      else Val None
  end.

Definition get_holders_info_solscan_alternative (mint : string) : M holders_info :=
  r <- try_except
         (response <- request SolscanTokenHolders mint ;;
          if status response =? 200 then
            data <- lift (json_body response) ;;
            lift (solscan_payload data)
          else ret None)
         (fun e => ret None) ;;
  match r with
  | Some d => ret d
  | None => ret holders_zero
  end.

Definition get_holders_info (mint : string) : M holders_info :=
  holders_info <- get_holders_info_helius mint ;;
  holders_info <-
    (if hi_holders holders_info =? 0
     then get_holders_info_solscan_alternative mint
     else ret holders_info) ;;
  holders_info <-
    (if hi_holders holders_info =? 0
     then get_holders_info_fallback mint
     else ret holders_info) ;;
  ret holders_info.

(** *** RiskAssessor *)

(** [x is not None] *)
Definition is_not_none (v : json) : bool :=
  match v with
  | JNull => false
  | _ => true
  end.

Definition rug_pull_payload (data : json) : exc (option bool) :=
  let* result := Py.get data "result" (JObj []) in
  let* value := Py.get result "value" (JObj []) in
  let* cond :=
    if truthy value
    then let* d := Py.get value "data" JNull in Val (truthy d)
    else Val false in
  if cond then
    let* d := Py.getitem value "data" in
    let* parsed_data := Py.get d "parsed" (JObj []) in
    let* info := Py.get parsed_data "info" (JObj []) in
    let* freeze_authority := Py.get info "freezeAuthority" JNull in
    let* mint_authority := Py.get info "mintAuthority" JNull in
    let has_freeze_authority := is_not_none freeze_authority in
    let has_mint_authority := is_not_none mint_authority in
    Val (Some (has_freeze_authority || has_mint_authority))
  else Val None.

Definition check_rug_pull_risk (mint : string) : M bool :=
  r <- try_except
         (response <- request SolanaGetAccountInfo mint ;;
          if status response =? 200 then
            data <- lift (json_body response) ;;
            lift (rug_pull_payload data)
          else ret None)
         (fun e => ret None) ;;
  match r with
  | Some b => ret b
  | None => ret false
  end.

(** *** Aggregator *)

Definition calculate_market_cap (price_usd : Q) (supply decimals : Z) : Q :=
  if (supply =? 0) || (decimals <? 0) then 0%Q
  else
    let adjusted_supply := (inject_Z supply / inject_Z (10 ^ decimals))%Q in
    (price_usd * adjusted_supply)%Q.

(** [analysis_data["score"] = score; analysis_data["explanations"] = ...] *)
Definition set_score (d : analysis_data) (score : Z) (explanations : list string)
  : analysis_data :=
  {| ad_mint := ad_mint d; ad_name := ad_name d; ad_symbol := ad_symbol d;
     ad_created_at := ad_created_at d; ad_pools := ad_pools d;
     ad_liquidity := ad_liquidity d; ad_volume_24h := ad_volume_24h d;
     ad_price_usd := ad_price_usd d;
     ad_price_change_24h := ad_price_change_24h d;
     ad_market_cap := ad_market_cap d; ad_supply := ad_supply d;
     ad_decimals := ad_decimals d; ad_holders := ad_holders d;
     ad_top_10_share := ad_top_10_share d;
     ad_rug_pull_risk := ad_rug_pull_risk d;
     ad_score := Some score; ad_explanations := Some explanations |}.

(** Lines 546-584: the merge, the market cap, the dictionary and the score,
    on the four results of [gather] and the risk flag. *)
Definition assemble (mint : string)
    (dex_data : exc dex_data) (metadata : exc metadata)
    (supply_info : exc supply_info) (holders_info : exc holders_info)
    (rug_pull_risk : bool) : exc analysis_result :=
  let* s := result_get supply_info si_supply in
  let* supply := if negb (s =? 0) then Val s else result_get metadata md_supply in
  let* d := result_get supply_info si_decimals in
  let* decimals := if negb (d =? 0) then Val d else result_get metadata md_decimals in
  let* price_usd := result_get dex_data dex_price_usd in
  let market_cap := calculate_market_cap price_usd supply decimals in
  let* name := result_get metadata md_name in
  let* symbol := result_get metadata md_symbol in
  let* created_at := result_get metadata md_created_at in
  let* pools := result_get dex_data dex_pools in
  let* liquidity := result_get dex_data dex_liquidity in
  let* volume_24h := result_get dex_data dex_volume_24h in
  let* price_usd := result_get dex_data dex_price_usd in
  let* price_change_24h := result_get dex_data dex_price_change_24h in
  let* holders := result_get holders_info hi_holders in
  let* top_10_share := result_get holders_info hi_top_10_share in
  let analysis_data :=
    {| ad_mint := Some mint; ad_name := Some name; ad_symbol := Some symbol;
       ad_created_at := Some created_at; ad_pools := Some pools;
       ad_liquidity := Some liquidity; ad_volume_24h := Some volume_24h;
       ad_price_usd := Some price_usd;
       ad_price_change_24h := Some price_change_24h;
       ad_market_cap := Some market_cap; ad_supply := Some supply;
       ad_decimals := Some decimals; ad_holders := Some holders;
       ad_top_10_share := Some top_10_share;
       ad_rug_pull_risk := Some rug_pull_risk;
       ad_score := None; ad_explanations := None |} in
  let (score, explanations) := calculate_score analysis_data in
  Val (AnalysisDict (set_score analysis_data score explanations)).

Definition analyze_token (mint : string) : M analysis_result :=
  if negb (is_valid_mint mint) then ret (ErrorDict MintInvalide)
  else
    try_except
      (dex_data <- settle (get_dexscreener_data mint) ;;
       metadata <- settle (get_token_metadata mint) ;;
       supply_info <- settle (get_token_supply_info mint) ;;
       holders_info <- settle (get_holders_info mint) ;;
       rug_pull_risk <- check_rug_pull_risk mint ;;
       lift (assemble mint dex_data metadata supply_info holders_info
               rug_pull_risk))
      (fun e => ret (ErrorDict (ErreurAnalyse e))).

End SolanaAnalyzer.

(** ** A concrete instance of the library functions

    Plain decimal numerals for [int(str)] and [float(str)], and the Bitcoin
    alphabet for base-58; used to run the analyzer on sample inputs. *)

Module Decimal.

Definition digit (c : ascii) : option Z :=
  let n := Z.of_nat (nat_of_ascii c) in
  if (48 <=? n) && (n <=? 57) then Some (n - 48) else None.

Fixpoint digits (s : string) (acc : Z) : option Z :=
  match s with
  | EmptyString => Some acc
  | String c rest =>
      match digit c with
      | Some d => digits rest (acc * 10 + d)
      | None => None
      end
  end.

Definition unsigned (s : string) : option Z :=
  match s with
  | EmptyString => None
  | _ => digits s 0
  end.

Definition parse_int (s : string) : option Z :=
  match s with
  | String "-"%char rest => option_map Z.opp (unsigned rest)
  | _ => unsigned s
  end.

(** The text before and after the first ["."]. *)
Fixpoint split_dot (s : string) : string * option string :=
  match s with
  | EmptyString => (EmptyString, None)
  | String "."%char rest => (EmptyString, Some rest)
  | String c rest => let (a, b) := split_dot rest in (String c a, b)
  end.

Definition unsigned_float (s : string) : option Q :=
  match split_dot s with
  | (whole, None) => option_map inject_Z (unsigned whole)
  | (whole, Some frac) =>
      match unsigned whole, digits frac 0 with
      | Some w, Some f =>
          let scale := 10 ^ Z.of_nat (String.length frac) in
          Some (Qred (Qmake (w * scale + f) (Z.to_pos scale)))
      | _, _ => None
      end
  end.

Definition parse_float (s : string) : option Q :=
  match s with
  | String "-"%char rest => option_map Qopp (unsigned_float rest)
  | _ => unsigned_float s
  end.

Definition alphabet : string :=
  "123456789ABCDEFGHJKLMNPQRSTUVWXYZabcdefghijkmnopqrstuvwxyz".

Fixpoint index_of (c : ascii) (s : string) (i : Z) : option Z :=
  match s with
  | EmptyString => None
  | String c' rest => if Ascii.eqb c c' then Some i else index_of c rest (i + 1)
  end.

(** The number a base-58 numeral denotes. *)
Fixpoint b58_number (s : string) (acc : Z) : option Z :=
  match s with
  | EmptyString => Some acc
  | String c rest =>
      match index_of c alphabet 0 with
      | Some d => b58_number rest (acc * 58 + d)
      | None => None
      end
  end.

Fixpoint leading_ones (s : string) : list Z :=
  match s with
  | String "1"%char rest => 0 :: leading_ones rest
  | _ => []
  end.

(** The big-endian bytes of [n], at most [fuel] of them. *)
Fixpoint bytes_of (fuel : nat) (n : Z) (acc : list Z) : list Z :=
  match fuel with
  | O => acc
  | S fuel' => if n =? 0 then acc else bytes_of fuel' (n / 256) (n mod 256 :: acc)
  end.

Definition decode58 (s : string) : option (list Z) :=
  match b58_number s 0 with
  | Some n => Some (leading_ones s ++ bytes_of (String.length s) n [])
  | None => None
  end.

#[export] Instance builtins : Builtins :=
  {| b58decode := decode58; float_of_str := parse_float; int_of_str := parse_int |}.

End Decimal.

(** ** Reading a run of a source *)

(** The outcome the next request to [ep] receives after [log]. *)
Definition next_response (net : network) (ep : endpoint) (mint : string)
    (log : list call) : exc http_response :=
  let c := {| call_endpoint := ep; call_mint := mint |} in
  net c (count_occ call_eq_dec log c).

(** What a source's [try] block computes from the outcome of its request:
    a returned dictionary, an end without [return], or a raise. *)
Definition outcome {A : Type} (payload : json -> exc (option A))
    (r : exc http_response) : exc (option A) :=
  let* response := r in
  if status response =? 200 then
    let* data := json_body response in
    payload data
  else Val None.

(** The dictionary the [try] block returned, if it returned one. *)
Definition returned {A : Type} (o : exc (option A)) : option A :=
  match o with
  | Val (Some a) => Some a
  | _ => None
  end.

Definition or_default {A : Type} (default : A) (o : option A) : A :=
  match o with
  | Some a => a
  | None => default
  end.

(** ** The specification's words *)

Module Spec.

(** A rubric row [>= t3 -> 3, >= t2 -> 2, >= t1 -> 1, else 0]. *)
Definition ladder3 (t3 t2 t1 x : Q) (points : Z) : Prop :=
  ((t3 <= x)%Q -> points = 3) /\
  ((t2 <= x /\ x < t3)%Q -> points = 2) /\
  ((t1 <= x /\ x < t2)%Q -> points = 1) /\
  ((x < t1)%Q -> points = 0).

(** The same row on an integer count. *)
Definition ladder3_count (t3 t2 t1 x points : Z) : Prop :=
  (t3 <= x -> points = 3) /\
  (t2 <= x < t3 -> points = 2) /\
  (t1 <= x < t2 -> points = 1) /\
  (x < t1 -> points = 0).

(** A rubric row [<= t2 -> 2, <= t1 -> 1, else 0] (lower is better). *)
Definition ladder2_low (t2 t1 x : Q) (points : Z) : Prop :=
  ((x <= t2)%Q -> points = 2) /\
  ((t2 < x /\ x <= t1)%Q -> points = 1) /\
  ((t1 < x)%Q -> points = 0).

(** The pools row [>= 5 -> 2, >= 2 -> 1, else 0]. *)
Definition pools_row (x points : Z) : Prop :=
  (5 <= x -> points = 2) /\
  (2 <= x < 5 -> points = 1) /\
  (x < 2 -> points = 0).

(** The security row: [rugPullRisk == false -> 2, else 0]. *)
Definition security_row (risk : bool) (points : Z) : Prop :=
  (risk = false -> points = 2) /\ (risk = true -> points = 0).

(** The per-category maxima of the rubric table, in its order. *)
Definition category_max : list Z := [2; 3; 3; 2; 3; 3; 2; 2].

(** The record with each absent scored field replaced by its default. *)
Definition with_defaults (d : analysis_data) : analysis_data :=
  {| ad_mint := ad_mint d; ad_name := ad_name d; ad_symbol := ad_symbol d;
     ad_created_at := ad_created_at d;
     ad_pools := Some (dict_get (ad_pools d) 0);
     ad_liquidity := Some (dict_get (ad_liquidity d) 0%Q);
     ad_volume_24h := Some (dict_get (ad_volume_24h d) 0%Q);
     ad_price_usd := ad_price_usd d;
     ad_price_change_24h := Some (dict_get (ad_price_change_24h d) 0%Q);
     ad_market_cap := Some (dict_get (ad_market_cap d) 0%Q);
     ad_supply := ad_supply d; ad_decimals := ad_decimals d;
     ad_holders := Some (dict_get (ad_holders d) 0);
     ad_top_10_share := Some (dict_get (ad_top_10_share d) 100%Q);
     ad_rug_pull_risk := Some (dict_get (ad_rug_pull_risk d) true);
     ad_score := ad_score d; ad_explanations := ad_explanations d |}.

(** [top10SharePct]: 100 times the ten largest balances over all balances,
    to two decimals, and 0 when the balances sum to 0. *)
Definition top10_share (balances : list Q) : Q :=
  let total := Py.sum balances in
  if Qeq_bool total 0 then 0%Q
  else
    let top10 := firstn 10 (Py.sort_desc (fun x => x) balances) in
    Py.round2 (100 * Py.sum top10 / total)%Q.

(** The output of the first strategy, in the given order, that found a
    holder; the all-zero distribution when none did. *)
Fixpoint first_with_holders (outputs : list holders_info) : holders_info :=
  match outputs with
  | [] => holders_zero
  | o :: rest => if hi_holders o >? 0 then o else first_with_holders rest
  end.


(** Follow [keys] down nested objects. *)
Fixpoint json_path (keys : list string) (v : json) : option json :=
  match keys with
  | [] => Some v
  | k :: ks =>
      match v with
      | JObj kvs =>
          match assoc k kvs with
          | Some v' => json_path ks v'
          | None => None
          end
      | _ => None
      end
  end.

(** The account's [key] field is present and not null. *)
Definition has_authority (key : string) (info : list (string * json)) : Prop :=
  exists v, assoc key info = Some v /\ v <> JNull.

End Spec.

(** The points one block of [calculate_score] adds to the running score. *)
Definition gain (step : analysis_data -> acc -> acc) (data : analysis_data)
    (st : acc) : Z :=
  fst (step data st) - fst st.

(** ** Sample records *)

(** A record that carries the scored fields only. *)
Definition scored (pools : Z) (volume liquidity change cap : Q) (holders : Z)
    (top10 : Q) (risk : bool) : analysis_data :=
  {| ad_mint := None; ad_name := None; ad_symbol := None; ad_created_at := None;
     ad_pools := Some pools; ad_liquidity := Some liquidity;
     ad_volume_24h := Some volume; ad_price_usd := None;
     ad_price_change_24h := Some change; ad_market_cap := Some cap;
     ad_supply := None; ad_decimals := None; ad_holders := Some holders;
     ad_top_10_share := Some top10; ad_rug_pull_risk := Some risk;
     ad_score := None; ad_explanations := None |}.

(** 6 pools, $2,000,000 volume, $1,500,000 liquidity, 3% change, market cap
    $15,000,000, 12,000 holders, top-10 share 18%, no active authority. *)
Definition scenario_best : analysis_data :=
  scored 6 2000000 1500000 3 15000000 12000 18 false.

(** 0 pools, $0 volume and liquidity, 40% swing, $0 market cap, 0 holders,
    top-10 share 100%, an active mint authority. *)
Definition scenario_worst : analysis_data :=
  scored 0 0 0 40 0 0 100 true.

(** The eight blocks of [calculate_score], in source order. *)
Definition score_steps : list (analysis_data -> acc -> acc) :=
  [score_pools; score_volume; score_liquidity; score_stability;
   score_market_cap; score_holders; score_distribution; score_security].

(** ** The three holder strategies, each on its own *)

Section Strategies.
Context {B : Builtins} (net : network).

(** What a strategy yields from the response its next request receives:
    the dictionary its [try] block returns, [holderCount = 0] otherwise. *)
Definition strategy_A (mint : string) (log : list call) : holders_info :=
  or_default holders_zero
    (returned (outcome helius_payload
                 (next_response net HeliusGetTokenAccounts mint log))).

Definition strategy_B (mint : string) (log : list call) : holders_info :=
  or_default holders_zero
    (returned (outcome solscan_payload
                 (next_response net SolscanTokenHolders mint log))).

Definition strategy_C (mint : string) (log : list call) : holders_info :=
  or_default holders_zero
    (returned (outcome fallback_payload
                 (next_response net SolanaGetProgramAccounts mint log))).

End Strategies.

(** Every strategy yields a found holder or the all-zero distribution. *)
Definition zero_or_found (d : holders_info) : Prop :=
  hi_holders d > 0 \/ d = holders_zero.

(** ** Sample networks *)

Definition usdc : string := "EPjFWdd5AufqSSqeM2qN1xzybapC8G4wEGGkZwyTDt1v".

Definition ok (body : json) : exc http_response :=
  Val {| status := 200; json_body := Val body |}.

Definition unavailable : exc http_response :=
  Val {| status := 503; json_body := Raise JSONDecodeError |}.

(** A Solscan page with two holders. *)
Definition solscan_two_holders : json :=
  JObj [("data",
         JList [JObj [("owner", JStr "h1"); ("amount", JInt 600)];
                JObj [("owner", JStr "h2"); ("amount", JInt 400)]])].

(** A [getProgramAccounts] result with one token account. *)
Definition program_accounts_one_holder : json :=
  JObj [("result",
         JList [JObj [("pubkey", JStr "acc1");
                      ("account",
                       JObj [("data",
                              JObj [("parsed",
                                     JObj [("info",
                                            JObj [("tokenAmount",
                                                   JObj [("amount", JStr "700")])])])])])]])].

(** The indexer is down; Solscan and the ledger node both answer. *)
Definition net_indexer_down : network :=
  fun c n =>
    match call_endpoint c with
    | HeliusGetTokenAccounts => unavailable
    | SolscanTokenHolders => ok solscan_two_holders
    | SolanaGetProgramAccounts => ok program_accounts_one_holder
    | _ => Raise ClientError
    end.

(** The resolution as the specification words it: strategies A, B, C in
    this order, each on the response its request receives. *)
Definition claimed_resolution {B : Builtins} (net : network) (mint : string)
    (log : list call) : holders_info :=
  Spec.first_with_holders
    [strategy_A net mint log; strategy_B net mint log; strategy_C net mint log].

(** ** What each source hands to the merge *)

Section Sources.
Context {B : Builtins} (net : network).

Definition market_of (mint : string) (log : list call) : dex_data :=
  or_default dex_default
    (returned (outcome dexscreener_payload
                 (next_response net DexScreenerTokens mint log))).

Definition metadata_of (mint : string) (log : list call) : metadata :=
  or_default metadata_default
    (returned (outcome metadata_payload
                 (next_response net HeliusGetAsset mint log))).

Definition supply_of (mint : string) (log : list call) : supply_info :=
  or_default supply_default
    (returned (outcome supply_payload
                 (next_response net SolanaGetTokenSupply mint log))).

Definition holders_of (mint : string) (log : list call) : holders_info :=
  Spec.first_with_holders
    [strategy_A net mint log; strategy_C net mint log; strategy_B net mint log;
     strategy_C net mint
       (log ++ [{| call_endpoint := SolanaGetProgramAccounts;
                   call_mint := mint |}])].

Definition risk_of (mint : string) (log : list call) : bool :=
  or_default false
    (returned (outcome rug_pull_payload
                 (next_response net SolanaGetAccountInfo mint log))).

End Sources.

(** The dictionary [analyze_token] assembles from four returned
    dictionaries and the risk flag, before the score is attached. *)
Definition merged (mint : string) (dex : dex_data) (md : metadata)
    (si : supply_info) (hi : holders_info) (rug : bool) : analysis_data :=
  let supply := if si_supply si =? 0 then md_supply md else si_supply si in
  let decimals := if si_decimals si =? 0 then md_decimals md else si_decimals si in
  {| ad_mint := Some mint; ad_name := Some (md_name md);
     ad_symbol := Some (md_symbol md); ad_created_at := Some (md_created_at md);
     ad_pools := Some (dex_pools dex); ad_liquidity := Some (dex_liquidity dex);
     ad_volume_24h := Some (dex_volume_24h dex);
     ad_price_usd := Some (dex_price_usd dex);
     ad_price_change_24h := Some (dex_price_change_24h dex);
     ad_market_cap :=
       Some (calculate_market_cap (dex_price_usd dex) supply decimals);
     ad_supply := Some supply; ad_decimals := Some decimals;
     ad_holders := Some (hi_holders hi);
     ad_top_10_share := Some (hi_top_10_share hi);
     ad_rug_pull_risk := Some rug;
     ad_score := None; ad_explanations := None |}.

(** A healthy network: two pools, metadata and supply that disagree, three
    token accounts, and a live freeze authority. *)
Definition dexscreener_two_pairs : json :=
  JObj [("pairs",
         JList [JObj [("volume", JObj [("h24", JFloat (24001 # 2))]);
                      ("liquidity", JObj [("usd", JInt 90000)])];
                JObj [("priceUsd", JStr "1.0001");
                      ("priceChange", JObj [("h24", JFloat (-1 # 50))]);
                      ("volume", JObj [("h24", JInt 1200000)]);
                      ("liquidity", JObj [("usd", JFloat (7000001 # 2))])]])].

Definition asset_usdc : json :=
  JObj [("result",
         JObj [("token_info",
                JObj [("supply", JInt 5000000000000); ("decimals", JInt 6)]);
               ("content",
                JObj [("metadata",
                       JObj [("name", JStr "USD Coin");
                             ("symbol", JStr "USDC")])])])].

Definition token_supply_usdc : json :=
  JObj [("result",
         JObj [("value",
                JObj [("amount", JStr "10000000000000"); ("decimals", JInt 6)])])].

Definition token_accounts_three : json :=
  JObj [("result",
         JObj [("token_accounts",
                JList [JObj [("address", JStr "a1"); ("amount", JInt 250)];
                       JObj [("address", JStr "a2"); ("amount", JInt 0)];
                       JObj [("address", JStr "a3"); ("amount", JInt 500)];
                       JObj [("address", JStr "a4"); ("amount", JInt 250)]])])].

Definition account_with_freeze_authority : json :=
  JObj [("result",
         JObj [("value",
                JObj [("data",
                       JObj [("parsed",
                              JObj [("info",
                                     JObj [("freezeAuthority", JStr "3sNBr7kM");
                                           ("mintAuthority", JNull)])])])])])].

Definition net_healthy : network :=
  fun c n =>
    match call_endpoint c with
    | DexScreenerTokens => ok dexscreener_two_pairs
    | HeliusGetAsset => ok asset_usdc
    | HeliusGetTokenAccounts => ok token_accounts_three
    | SolanaGetTokenSupply => ok token_supply_usdc
    | SolanaGetProgramAccounts => ok program_accounts_one_holder
    | SolscanTokenHolders => ok solscan_two_holders
    | SolanaGetAccountInfo => ok account_with_freeze_authority
    end.


Definition account_with_revoked_authorities : json :=
  JObj [("result",
         JObj [("value",
                JObj [("data",
                       JObj [("parsed",
                              JObj [("info",
                                     JObj [("freezeAuthority", JNull);
                                           ("mintAuthority", JNull);
                                           ("decimals", JInt 6)])])])])])].

Definition account_not_parsed : json :=
  JObj [("result",
         JObj [("value",
                JObj [("data", JList [JStr "AQAAAA=="; JStr "base64"])])])].

(** Token accounts of the indexer holding the given amounts. *)
Definition token_accounts_of (amounts : list Z) : json :=
  JObj [("result",
         JObj [("token_accounts",
                JList (map (fun a => JObj [("address", JStr "holder");
                                           ("amount", JInt a)]) amounts))])].

(** A Solscan listing (bare list) of the given amounts, as strings. *)
Definition solscan_listing_of (amounts : list string) : json :=
  JList (map (fun a => JObj [("owner", JStr "holder"); ("amount", JStr a)])
           amounts).

(** Twelve holders with balances 1 to 12, in no particular order. *)
Definition twelve_balances : list Z := [5; 12; 1; 7; 3; 10; 2; 11; 4; 9; 6; 8].

(** The label each explanation line of [calculate_score] opens with, in the
    order of the source. *)
Definition rubric_tags : list string :=
  ["🔢 **Pools**"; "📊 **Volume 24h**"; "💧 **Liquidité**"; "📈 **Stabilité**";
   "🏦 **Market Cap**"; "👥 **Holders**"; "🧮 **Distribution**";
   "🚨 **Sécurité**"].


(** ** Formatting

    The format specifications the f-strings of [bot.py] use, on exact
    numbers: [str(n)], [{n:,}], [{x:.2f}] and [{x:,.0f}].  A float is printed
    correctly rounded, ties to the even digit; the sign is the sign of the
    number printed, also when it rounds to zero. *)

Module Fmt.

(** The line feed. *)
Definition nl : string := String "010"%char EmptyString.

(** [str(n)] for an [int] *)
Definition str_int (n : Z) : string := NilZero.string_of_int (Z.to_int n).

(** A comma before every group of three digits counted from the right;
    [left] is the number of digits not yet written. *)
Fixpoint commas (digits : string) (left : nat) : string :=
  match digits with
  | EmptyString => EmptyString
  | String c rest =>
      let left := pred left in
      String c (if negb (Nat.eqb left 0) && Nat.eqb (Nat.modulo left 3) 0
                then String ","%char (commas rest left)
                else commas rest left)
  end.

Definition group3 (digits : string) : string := commas digits (String.length digits).

(** [f"{n:,}"] for an [int] *)
Definition grouped (n : Z) : string :=
  ((if (n <? 0)%Z then "-" else "") ++ group3 (str_int (Z.abs n)))%string.

(** [digits] with zeros in front up to [width] characters. *)
Fixpoint zeros (n : nat) : string :=
  match n with
  | O => EmptyString
  | S n' => String "0"%char (zeros n')
  end.

Definition zfill (width : nat) (digits : string) : string :=
  (zeros (width - String.length digits)%nat ++ digits)%string.

(** The digits of a fixed-point rendering with [d] decimals: the sign, the
    whole part (through [whole]) and the [d] digits after the point. *)
Definition fixed_with (whole : string -> string) (d : nat) (x : Q) : string :=
  let scale := 10 ^ Z.of_nat d in
  let m := Py.round_half_even (Qabs x * inject_Z scale) in
  ((if Py.Qgt_bool 0 x then "-" else "") ++
   whole (str_int (m / scale)%Z) ++
   match d with
   | O => ""
   | _ => "." ++ zfill d (str_int (m mod scale)%Z)
   end)%string.

(** [f"{x:.df}"] *)
Definition fixed (d : nat) (x : Q) : string := fixed_with (fun s => s) d x.

(** [f"{x:,.df}"] *)
Definition fixed_grouped (d : nat) (x : Q) : string := fixed_with group3 d x.

(** [s.split("T")[0]]: the text before the first ["T"]. *)
Fixpoint before_T (s : string) : string :=
  match s with
  | EmptyString => EmptyString
  | String c rest => if Ascii.eqb c "T" then EmptyString else String c (before_T rest)
  end.

End Fmt.

(** ** Text operations taken as given

    [str] of a float, a list or a dictionary, [str] of an exception and
    [str.strip] are Python's, not code of this repository. *)
Class Strings : Type := {
  (** [str(v)] for a float, a list or a dict *)
  str_other : json -> string;
  (** [str(e)] for an exception raised inside the analyzer *)
  str_exn : exn -> string;
  (** [s.strip()] *)
  strip : string -> string
}.

(** ** ReportFormatter: [format_number] and [format_analysis_message] *)

Section Report.
Context {Tx : Strings}.

(** [str(v)], which is what [f"{v}"] prints. *)
Definition str (v : json) : string :=
  match v with
  | JNull => "None"
  | JBool true => "True"
  | JBool false => "False"
  | JInt n => Fmt.str_int n
  | JStr s => s
  | _ => str_other v
  end.

Definition format_number (num : Q) : string :=
  if Qge_bool num 1000000000 then (Fmt.fixed 2 (num / 1000000000) ++ "B")%string
  else if Qge_bool num 1000000 then (Fmt.fixed 2 (num / 1000000) ++ "M")%string
  else if Qge_bool num 1000 then (Fmt.fixed 2 (num / 1000) ++ "K")%string
  else Fmt.fixed 2 num.

(** The text under ["error"] in the dictionary [analyze_token] returns. *)
Definition error_text (err : analysis_error) : string :=
  match err with
  | MintInvalide => "Mint address invalide"
  | ErreurAnalyse e => ("Erreur lors de l'analyse: " ++ str_exn e)%string
  end.

(** [created_at != "Inconnue"] *)
Definition is_not_inconnue (created_at : json) : bool :=
  match created_at with
  | JStr s => negb (String.eqb s "Inconnue")
  | _ => true
  end.

(** Lines 599-602: only a [str] has [split]. *)
Definition shown_created_at (data : analysis_data) : exc json :=
  let created_at := dict_get (ad_created_at data) (JStr "Inconnue") in
  if truthy created_at && is_not_inconnue created_at then
    match created_at with
    | JStr s => Val (JStr (Fmt.before_T s))
    | _ => Raise AttributeError
    end
  else Val created_at.

(** # Formatage de la supply *)
Definition formatted_supply_of (data : analysis_data) : string :=
  let supply := dict_get (ad_supply data) 0 in
  let decimals := dict_get (ad_decimals data) 0 in
  if (supply >? 0) && (decimals >? 0) then
    Fmt.fixed_grouped 0 (inject_Z supply / inject_Z (10 ^ decimals))
  else Fmt.grouped supply.

(** # Indicateur de changement de prix *)
Definition price_indicator_of (data : analysis_data) : string :=
  if Qge_bool (dict_get (ad_price_change_24h data) 0%Q) 0 then "📈" else "📉".

(** # Indicateur de rug-pull *)
Definition rug_indicator_of (data : analysis_data) : string :=
  if dict_get (ad_rug_pull_risk data) false then "🚨 Oui" else "✅ Non".

(** # Évaluation du score: [(score_emoji, score_eval)] *)
Definition score_evaluation (score : Z) : string * string :=
  if score >=? 16 then ("🟢", "Excellent")
  else if score >=? 12 then ("🟡", "Bon")
  else if score >=? 8 then ("🟠", "Moyen")
  else ("🔴", "Risqué").

(** # Conseil basé sur le score *)
Definition advice (score : Z) : string :=
  if score >=? 16 then
    (Fmt.nl ++ "💡 **Recommandation** : Token de qualité avec de bonnes métriques")%string
  else if score >=? 12 then
    (Fmt.nl ++ "💡 **Recommandation** : Token correct, surveiller l'évolution")%string
  else if score >=? 8 then
    (Fmt.nl ++ "⚠️ **Attention** : Métriques moyennes, investir avec prudence")%string
  else
    (Fmt.nl ++ "🚨 **Alerte** : Métriques faibles, risque élevé")%string.

(** # Message principal: the template of lines 645-662. *)
Definition main_message (data : analysis_data) (created_at : json) : string :=
  let nl := Fmt.nl in
  let name := dict_get (ad_name data) (JStr "Unknown") in
  let symbol := dict_get (ad_symbol data) (JStr "Unknown") in
  let mint := dict_get (ad_mint data) "" in
  let pools := dict_get (ad_pools data) 0 in
  let liquidity := format_number (dict_get (ad_liquidity data) 0%Q) in
  let volume_24h := format_number (dict_get (ad_volume_24h data) 0%Q) in
  let price_usd := dict_get (ad_price_usd data) 0%Q in
  let price_change_24h := dict_get (ad_price_change_24h data) 0%Q in
  let market_cap := format_number (dict_get (ad_market_cap data) 0%Q) in
  let decimals := dict_get (ad_decimals data) 0 in
  let holders := dict_get (ad_holders data) 0 in
  let top_10_share := dict_get (ad_top_10_share data) 0%Q in
  let score := dict_get (ad_score data) 0 in
  let formatted_supply := formatted_supply_of data in
  let price_indicator := price_indicator_of data in
  let rug_indicator := rug_indicator_of data in
  let (score_emoji, score_eval) := score_evaluation score in
  ("💡 *Analyse Solana* — `" ++ str symbol ++ "` (" ++ str name ++ ")" ++ nl ++
         "🏷️ Mint           : `" ++ mint ++ "`" ++ nl ++
         "🗓️ Créé le       : " ++ str created_at ++ nl ++
         "🔢 Pools actives  : " ++ Fmt.str_int pools ++ nl ++
         "💧 Liquidité      : $" ++ liquidity ++ nl ++
         "📊 Volume 24h    : $" ++ volume_24h ++ nl ++
         "💲 Prix (USD)    : $" ++ Fmt.fixed 6 price_usd ++ nl ++
         price_indicator ++ " Δ24h          : " ++ Fmt.fixed 2 price_change_24h ++ "%" ++ nl ++
         "🏦 Market Cap     : $" ++ market_cap ++ nl ++
         "🔢 Supply        : " ++ formatted_supply ++ " (decimals=" ++ Fmt.str_int decimals ++ ")" ++ nl ++
         "👥 Holders       : " ++ Fmt.grouped holders ++ nl ++
         "🧮 Top 10 share   : " ++ Fmt.fixed 1 top_10_share ++ "%" ++ nl ++
         "🚨 Rug-pull      : " ++ rug_indicator ++ nl ++
         nl ++
         score_emoji ++ " *Score final* : " ++ Fmt.str_int score ++ "/20 (" ++ score_eval ++ ")" ++ nl ++
         nl ++
         "📝 **Détail du scoring :**" ++ nl)%string.

(** # Ajout des explications *)
Definition add_explanations (message : string) (explanations : list string) : string :=
  fold_left (fun message explanation => (message ++ explanation ++ Fmt.nl)%string)
    explanations message.

Definition format_analysis_message (data : analysis_result) : exc string :=
  match data with
  | ErrorDict err => Val ("❌ **Erreur**: " ++ error_text err)%string
  | AnalysisDict data =>
      let* created_at := shown_created_at data in
      let score := dict_get (ad_score data) 0 in
      let explanations := dict_get (ad_explanations data) [] in
      let message := main_message data created_at in
      let message := add_explanations message explanations in
      Val (message ++ advice score)%string
  end.

End Report.

(** [piece] occurs in [text]. *)
Definition appears (piece text : string) : Prop :=
  exists before after, text = (before ++ piece ++ after)%string.

(** A record whose only key is a price of 0.0000001 USD. *)
Definition dust_priced : analysis_data :=
  {| ad_mint := None; ad_name := None; ad_symbol := None; ad_created_at := None;
     ad_pools := None; ad_liquidity := None; ad_volume_24h := None;
     ad_price_usd := Some (1 # 10000000); ad_price_change_24h := None;
     ad_market_cap := None; ad_supply := None; ad_decimals := None;
     ad_holders := None; ad_top_10_share := None; ad_rug_pull_risk := None;
     ad_score := None; ad_explanations := None |}.
(** ** TelegramBot

    A handler talks to two parties: the data providers, through the
    analyzer, and the Bot API, through [reply_text] and [edit_text] (both
    with [parse_mode='Markdown']).  The Bot API is an oracle like the
    network: it may refuse a call, which raises in the handler.

    The handlers are modelled as their bodies read, from the call of the
    handler on.  How python-telegram-bot routes an update to a handler, and
    whether the module loads (the import of [Update], which the signatures
    of the handlers name, is commented out on line 9), are outside the
    model. *)

Inductive tg_call : Type :=
| ReplyText (text : string)                 (* update.message.reply_text(text) *)
| EditText (message : nat) (text : string). (* edit_text(text) on the message the
                                               [message]-th call sent *)

(** What a handler can see raised: an exception of the analyzer, or an
    error of the Bot API with its text. *)
Inductive bot_exn : Type :=
| AnalyzerError (e : exn)
| TelegramError (text : string).

(** Whether the Bot API refuses the call made after [n] earlier ones, and
    the text of the error it then raises. *)
Definition telegram : Type := nat -> tg_call -> option string.

(** The requests sent to the providers and the calls made to the Bot API. *)
Record world : Type := { requests : list call; chat : list tg_call }.

Inductive attempt (A : Type) : Type :=
| Done (a : A)
| Failed (e : bot_exn).

Arguments Done {A} a.
Arguments Failed {A} e.

(** A handler coroutine. *)
Definition Bot (A : Type) : Type := world -> attempt A * world.

Definition bot_ret {A : Type} (a : A) : Bot A := fun w => (Done a, w).

Definition bot_bind {A B : Type} (c : Bot A) (k : A -> Bot B) : Bot B :=
  fun w =>
    match c w with
    | (Done a, w') => k a w'
    | (Failed e, w') => (Failed e, w')
    end.

Notation "x <~ c ;; k" := (bot_bind c (fun x => k))
  (at level 61, c at next level, right associativity).

(** [try: body / except Exception as e: handler], and the bare [except:]. *)
Definition bot_try {A : Type} (body : Bot A) (handler : bot_exn -> Bot A) : Bot A :=
  fun w =>
    match body w with
    | (Done a, w') => (Done a, w')
    | (Failed e, w') => handler e w'
    end.

Section TelegramBot.
Context {B : Builtins} {Tx : Strings} (net : network) (tg : telegram).

(** A call to the Bot API; the message it sends is known by its position. *)
Definition api (c : tg_call) : Bot nat :=
  fun w =>
    let n := List.length (chat w) in
    let w' := {| requests := requests w; chat := chat w ++ [c] |} in
    match tg n c with
    | None => (Done n, w')
    | Some text => (Failed (TelegramError text), w')
    end.

Definition reply_text (text : string) : Bot nat := api (ReplyText text).

Definition edit_text (message : nat) (text : string) : Bot unit :=
  _ <~ api (EditText message text) ;; bot_ret tt.

(** A coroutine of the analyzer awaited inside a handler. *)
Definition await {A : Type} (c : M A) : Bot A :=
  fun w =>
    let (r, log) := c (requests w) in
    let w' := {| requests := log; chat := chat w |} in
    match r with
    | Val a => (Done a, w')
    | Raise e => (Failed (AnalyzerError e), w')
    end.

(** [str(e)] *)
Definition str_bot_exn (e : bot_exn) : string :=
  match e with
  | AnalyzerError e => str_exn e
  | TelegramError text => text
  end.

Definition usage_text : string :=
  let nl := Fmt.nl in
  ("❌ **Erreur**: Veuillez fournir un mint address." ++ nl ++ nl ++
   "**Exemple:** `/analyse EPjFWdd5AufqSSqeM2qN1xzybapC8G4wEGGkZwyTDt1v`")%string.

Definition loading_text : string :=
  let nl := Fmt.nl in
  ("🔄 **Analyse en cours...**" ++ nl ++ nl ++
   "📊 Récupération des données de trading..." ++ nl ++
   "🏦 Analyse des métriques financières..." ++ nl ++
   "👥 Calcul de la distribution des holders..." ++ nl ++
   "🔍 Vérification du risque de rug-pull...")%string.

Definition failure_text (e : bot_exn) : string :=
  let nl := Fmt.nl in
  ("❌ **Erreur**: Une erreur s'est produite lors de l'analyse." ++ nl ++ nl ++
   "**Détails**: " ++ substring 0 200 (str_bot_exn e) ++ "...")%string.

Definition unrecognised_text : string :=
  let nl := Fmt.nl in
  ("❓ **Message non reconnu**" ++ nl ++ nl ++
   "Envoyez `/analyse <mint_address>` pour analyser un token." ++ nl ++
   "Ou envoyez `/help` pour plus d'informations.")%string.

(** Commande /analyse; [args] is [context.args]. *)
Definition analyze_command (args : list string) : Bot unit :=
  match args with
  | [] => _ <~ reply_text usage_text ;; bot_ret tt
  | mint :: _ =>
      loading_message <~ reply_text loading_text ;;
      bot_try
        (analysis <~ await (analyze_token net mint) ;;
         formatted_message <~ await (lift (format_analysis_message analysis)) ;;
         edit_text loading_message formatted_message)
        (fun e => edit_text loading_message (failure_text e))
  end.

(** Gère les messages texte (mint addresses); [text] is
    [update.message.text]. *)
Definition handle_message (text : string) : Bot unit :=
  let message_text := strip text in
  let n := Z.of_nat (String.length message_text) in
  let unrecognised := _ <~ reply_text unrecognised_text ;; bot_ret tt in
  if (n >=? 32) && (n <=? 44) then
    bot_try
      (_ <~ await (lift (match b58decode message_text with
                         | Some _ => Val tt
                         | None => Raise ValueError
                         end)) ;;
       analyze_command [message_text])
      (fun _ => unrecognised)
  else unrecognised.

End TelegramBot.

(** ** A concrete instance of the text operations

    Whitespace is what [str.isspace] accepts among the characters below
    256; used to run the handlers on sample inputs. *)

Module Plain.

Definition is_space (c : ascii) : bool :=
  let n := Z.of_nat (nat_of_ascii c) in
  ((9 <=? n) && (n <=? 13)) || ((28 <=? n) && (n <=? 32)) || (n =? 133) || (n =? 160).

Fixpoint lstrip (s : string) : string :=
  match s with
  | EmptyString => EmptyString
  | String c rest => if is_space c then lstrip rest else s
  end.

Fixpoint rstrip (s : string) : string :=
  match s with
  | EmptyString => EmptyString
  | String c rest =>
      let r := rstrip rest in
      if is_space c && String.eqb r "" then EmptyString else String c r
  end.

Definition class_name (e : exn) : string :=
  match e with
  | AttributeError => "AttributeError"
  | TypeError => "TypeError"
  | ValueError => "ValueError"
  | KeyError => "KeyError"
  | ClientError => "ClientError"
  | JSONDecodeError => "JSONDecodeError"
  end.

#[export] Instance strings : Strings :=
  {| str_other := fun _ => "<object>";
     str_exn := class_name;
     strip := fun s => rstrip (lstrip s) |}.

End Plain.

(** ** Sample conversations *)

(** A Bot API that accepts every call, and one that refuses every call. *)
Definition tg_up : telegram := fun _ _ => None.

Definition tg_down : telegram := fun _ _ => Some "Timed out".

(** A Bot API that accepts replies and refuses every edit, as it does when
    the Markdown of a report does not parse. *)
Definition tg_no_edit : telegram :=
  fun _ c =>
    match c with
    | ReplyText _ => None
    | EditText _ _ => Some "Can't parse entities"
    end.

(** The start of a conversation. *)
Definition quiet : world := {| requests := []; chat := [] |}.

(** The outcome of a call to the Bot API made after [n] others. *)
Definition answer (tg : telegram) (n : nat) (c : tg_call) : attempt unit :=
  match tg n c with
  | None => Done tt
  | Some text => Failed (TelegramError text)
  end.

(** The USDC mint pasted with blanks around it. *)
Definition pasted_usdc : string :=
  ("  EPjFWdd5AufqSSqeM2qN1xzybapC8G4wEGGkZwyTDt1v " ++ Fmt.nl)%string.

(** * Properties *)

Unset Implicit Arguments.

(** ** The scoring rubric *)

Lemma Qle_bool_false (x y : Q) : Qle_bool x y = false -> (y < x)%Q.
Proof.
  intros H. apply Qnot_le_lt. intros Hle.
  apply Qle_bool_iff in Hle. congruence.
Qed.

Ltac band_cases :=
  repeat match goal with
  | |- context [Qle_bool ?a ?b] =>
      let E := fresh "E" in
      destruct (Qle_bool a b) eqn:E;
      [apply Qle_bool_iff in E | apply Qle_bool_false in E]
  | |- context [?a >=? ?b] =>
      let E := fresh "E" in
      rewrite (Z.geb_leb a b);
      destruct (Z.leb_spec b a) as [E | E]
  end.

Ltac band_solve :=
  cbn [award explain fst snd];
  repeat split; intros;
  repeat match goal with
  | H : _ /\ _ |- _ => destruct H
  end;
  first [lia | exfalso; lra].

Lemma gain_pools d st : Spec.pools_row (dict_get (ad_pools d) 0) (gain score_pools d st).
Proof.
  unfold Spec.pools_row, gain, score_pools. band_cases; band_solve.
Qed.

Lemma gain_volume d st :
  Spec.ladder3 1000000 100000 10000 (dict_get (ad_volume_24h d) 0%Q) (gain score_volume d st).
Proof.
  unfold Spec.ladder3, gain, score_volume, Qge_bool. band_cases; band_solve.
Qed.

Lemma gain_liquidity d st :
  Spec.ladder3 1000000 100000 10000 (dict_get (ad_liquidity d) 0%Q) (gain score_liquidity d st).
Proof.
  unfold Spec.ladder3, gain, score_liquidity, Qge_bool. band_cases; band_solve.
Qed.

Lemma gain_stability d st :
  Spec.ladder2_low 5 15 (Qabs (dict_get (ad_price_change_24h d) 0%Q))
    (gain score_stability d st).
Proof.
  unfold Spec.ladder2_low, gain, score_stability. band_cases; band_solve.
Qed.

Lemma gain_market_cap d st :
  Spec.ladder3 10000000 1000000 100000 (dict_get (ad_market_cap d) 0%Q)
    (gain score_market_cap d st).
Proof.
  unfold Spec.ladder3, gain, score_market_cap, Qge_bool. band_cases; band_solve.
Qed.

Lemma gain_holders d st :
  Spec.ladder3_count 10000 1000 100 (dict_get (ad_holders d) 0) (gain score_holders d st).
Proof.
  unfold Spec.ladder3_count, gain, score_holders. band_cases; band_solve.
Qed.

Lemma gain_distribution d st :
  Spec.ladder2_low 20 50 (dict_get (ad_top_10_share d) 100%Q)
    (gain score_distribution d st).
Proof.
  unfold Spec.ladder2_low, gain, score_distribution. band_cases; band_solve.
Qed.

Lemma gain_security d st :
  Spec.security_row (dict_get (ad_rug_pull_risk d) true) (gain score_security d st).
Proof.
  unfold Spec.security_row, gain, score_security.
  destruct (dict_get (ad_rug_pull_risk d) true); cbn; split; intros; try lia; discriminate.
Qed.

(** No block reads the running score: its gain is the same from any state. *)
Ltac gain_any_state :=
  unfold gain, Qge_bool; cbv beta delta [score_pools score_volume score_liquidity
    score_stability score_market_cap score_holders score_distribution score_security] zeta;
  repeat match goal with
  | |- context [if ?c then _ else _] => destruct c
  end; cbn [award explain fst snd]; lia.

Lemma gain_pools_any d st st' : gain score_pools d st = gain score_pools d st'.
Proof. gain_any_state. Qed.
Lemma gain_volume_any d st st' : gain score_volume d st = gain score_volume d st'.
Proof. gain_any_state. Qed.
Lemma gain_liquidity_any d st st' : gain score_liquidity d st = gain score_liquidity d st'.
Proof. gain_any_state. Qed.
Lemma gain_stability_any d st st' : gain score_stability d st = gain score_stability d st'.
Proof. gain_any_state. Qed.
Lemma gain_market_cap_any d st st' : gain score_market_cap d st = gain score_market_cap d st'.
Proof. gain_any_state. Qed.
Lemma gain_holders_any d st st' : gain score_holders d st = gain score_holders d st'.
Proof. gain_any_state. Qed.
Lemma gain_distribution_any d st st' :
  gain score_distribution d st = gain score_distribution d st'.
Proof. gain_any_state. Qed.
Lemma gain_security_any d st st' : gain score_security d st = gain score_security d st'.
Proof. gain_any_state. Qed.

Lemma step_score (step : analysis_data -> acc -> acc) d st :
  fst (step d st) = fst st + gain step d st.
Proof. unfold gain. lia. Qed.

(** The running score after the eight blocks is the sum of their gains. *)
Lemma tally_sum d st :
  fst (tally d) =
    gain score_pools d st + gain score_volume d st + gain score_liquidity d st +
    gain score_stability d st + gain score_market_cap d st + gain score_holders d st +
    gain score_distribution d st + gain score_security d st.
Proof.
  unfold tally.
  rewrite (step_score score_security), (step_score score_distribution),
    (step_score score_holders), (step_score score_market_cap),
    (step_score score_stability), (step_score score_liquidity),
    (step_score score_volume), (step_score score_pools).
  cbn [fst].
  rewrite (gain_pools_any d _ st), (gain_volume_any d _ st),
    (gain_liquidity_any d _ st), (gain_stability_any d _ st),
    (gain_market_cap_any d _ st), (gain_holders_any d _ st),
    (gain_distribution_any d _ st), (gain_security_any d _ st).
  lia.
Qed.

Ltac gain_bounds :=
  unfold gain, Qge_bool; cbv beta delta [score_pools score_volume score_liquidity
    score_stability score_market_cap score_holders score_distribution score_security] zeta;
  repeat match goal with
  | |- context [if ?c then _ else _] => destruct c
  end; cbn [award explain fst snd]; lia.

Lemma gain_pools_bounds d st : 0 <= gain score_pools d st <= 2.
Proof. gain_bounds. Qed.
Lemma gain_volume_bounds d st : 0 <= gain score_volume d st <= 3.
Proof. gain_bounds. Qed.
Lemma gain_liquidity_bounds d st : 0 <= gain score_liquidity d st <= 3.
Proof. gain_bounds. Qed.
Lemma gain_stability_bounds d st : 0 <= gain score_stability d st <= 2.
Proof. gain_bounds. Qed.
Lemma gain_market_cap_bounds d st : 0 <= gain score_market_cap d st <= 3.
Proof. gain_bounds. Qed.
Lemma gain_holders_bounds d st : 0 <= gain score_holders d st <= 3.
Proof. gain_bounds. Qed.
Lemma gain_distribution_bounds d st : 0 <= gain score_distribution d st <= 2.
Proof. gain_bounds. Qed.
Lemma gain_security_bounds d st : 0 <= gain score_security d st <= 2.
Proof. gain_bounds. Qed.

Lemma tally_bounds d : 0 <= fst (tally d) <= 20.
Proof.
  rewrite (tally_sum d (0, [])).
  pose proof (gain_pools_bounds d (0, [])).
  pose proof (gain_volume_bounds d (0, [])).
  pose proof (gain_liquidity_bounds d (0, [])).
  pose proof (gain_stability_bounds d (0, [])).
  pose proof (gain_market_cap_bounds d (0, [])).
  pose proof (gain_holders_bounds d (0, [])).
  pose proof (gain_distribution_bounds d (0, [])).
  pose proof (gain_security_bounds d (0, [])).
  lia.
Qed.

(** C5: every category of [calculate_score] awards points as the step
    function of the rubric table, each threshold inclusive; the running
    score is the sum of the eight awards, and a volume of 999,999.99 earns 2
    points where 1,000,000.00 earns 3 (liquidity 10,000.00 earns 1,
    9,999.99 earns 0). *)
Theorem rubric_step_functions (data : analysis_data) (st : acc) :
  Spec.pools_row (dict_get (ad_pools data) 0) (gain score_pools data st) /\
  Spec.ladder3 1000000 100000 10000 (dict_get (ad_volume_24h data) 0%Q)
    (gain score_volume data st) /\
  Spec.ladder3 1000000 100000 10000 (dict_get (ad_liquidity data) 0%Q)
    (gain score_liquidity data st) /\
  Spec.ladder2_low 5 15 (Qabs (dict_get (ad_price_change_24h data) 0%Q))
    (gain score_stability data st) /\
  Spec.ladder3 10000000 1000000 100000 (dict_get (ad_market_cap data) 0%Q)
    (gain score_market_cap data st) /\
  Spec.ladder3_count 10000 1000 100 (dict_get (ad_holders data) 0)
    (gain score_holders data st) /\
  Spec.ladder2_low 20 50 (dict_get (ad_top_10_share data) 100%Q)
    (gain score_distribution data st) /\
  Spec.security_row (dict_get (ad_rug_pull_risk data) true)
    (gain score_security data st) /\
  fst (calculate_score data) =
    Z.min (gain score_pools data st + gain score_volume data st +
           gain score_liquidity data st + gain score_stability data st +
           gain score_market_cap data st + gain score_holders data st +
           gain score_distribution data st + gain score_security data st) 20 /\
  (ad_volume_24h data = Some (99999999 # 100) -> gain score_volume data st = 2) /\
  (ad_volume_24h data = Some 1000000%Q -> gain score_volume data st = 3) /\
  (ad_liquidity data = Some 10000%Q -> gain score_liquidity data st = 1) /\
  (ad_liquidity data = Some (999999 # 100) -> gain score_liquidity data st = 0).
Proof.
  split; [apply gain_pools |].
  split; [apply gain_volume |].
  split; [apply gain_liquidity |].
  split; [apply gain_stability |].
  split; [apply gain_market_cap |].
  split; [apply gain_holders |].
  split; [apply gain_distribution |].
  split; [apply gain_security |].
  split.
  { unfold calculate_score. cbn [fst]. now rewrite (tally_sum data st). }
  repeat split; intros H.
  - unfold gain, score_volume. rewrite H. cbn. lia.
  - unfold gain, score_volume. rewrite H. cbn. lia.
  - unfold gain, score_liquidity. rewrite H. cbn. lia.
  - unfold gain, score_liquidity. rewrite H. cbn. lia.
Qed.

(** C6: the total score lies in [0,20] for every record; each category
    awards between 0 and its maximum, the maxima 2+3+3+2+3+3+2+2 sum to 20
    and are reached together, so [min(score, 20)] never lowers the score. *)
Theorem total_score_in_range (data : analysis_data) :
  0 <= fst (calculate_score data) <= 20 /\
  fst (calculate_score data) = fst (tally data) /\
  Forall2 (fun step m => forall st, 0 <= gain step data st <= m)
    score_steps Spec.category_max /\
  fold_right Z.add 0 Spec.category_max = 20 /\
  fst (calculate_score scenario_best) = 20.
Proof.
  pose proof (tally_bounds data) as Hb.
  assert (Hcap : fst (calculate_score data) = fst (tally data)).
  { unfold calculate_score. cbn [fst]. lia. }
  split; [lia |].
  split; [exact Hcap |].
  split.
  { unfold score_steps, Spec.category_max.
    repeat (apply Forall2_cons;
      [ intros st;
        first [ apply gain_pools_bounds | apply gain_volume_bounds
              | apply gain_liquidity_bounds | apply gain_stability_bounds
              | apply gain_market_cap_bounds | apply gain_holders_bounds
              | apply gain_distribution_bounds | apply gain_security_bounds ]
      | ]).
    apply Forall2_nil. }
  split; reflexivity.
Qed.




(** ** Runs of the sources *)

Lemma count_occ_snoc_other (log : list call) (c c' : call) :
  c <> c' -> count_occ call_eq_dec (log ++ [c']) c = count_occ call_eq_dec log c.
Proof.
  intros Hne. rewrite count_occ_app. cbn.
  destruct (call_eq_dec c' c) as [E | E]; [congruence | lia].
Qed.

Lemma count_occ_snoc_same (log : list call) (c : call) :
  count_occ call_eq_dec (log ++ [c]) c = S (count_occ call_eq_dec log c).
Proof.
  rewrite count_occ_app. cbn.
  destruct (call_eq_dec c c) as [E | E]; [lia | congruence].
Qed.

(** A request to another endpoint does not change the next response. *)
Lemma next_response_other net ep ep' mint log :
  ep <> ep' ->
  next_response net ep mint (log ++ [{| call_endpoint := ep'; call_mint := mint |}])
  = next_response net ep mint log.
Proof.
  intros Hne. unfold next_response.
  rewrite count_occ_snoc_other; [reflexivity | congruence].
Qed.

Section Runs.
Context {B : Builtins} (net : network).

(** Unfold a source down to the outcome of its request. *)
Ltac run_source payload :=
  intros; unfold bind, try_except, request, lift, ret, next_response, outcome,
    returned, or_default; cbn;
  repeat match goal with
  | |- context [net ?c ?n] => destruct (net c n) as [[? [? | ?]] | ?]; cbn
  | |- context [?s =? 200] => destruct (s =? 200); cbn
  | |- context [payload ?d] => destruct (payload d) as [[? |] | ?]; cbn
  end; reflexivity.

Lemma get_dexscreener_data_run mint log :
  get_dexscreener_data net mint log =
    (Val (or_default dex_default
            (returned (outcome dexscreener_payload
                         (next_response net DexScreenerTokens mint log)))),
     log ++ [{| call_endpoint := DexScreenerTokens; call_mint := mint |}]).
Proof. unfold get_dexscreener_data. run_source dexscreener_payload. Qed.

Lemma get_token_metadata_run mint log :
  get_token_metadata net mint log =
    (Val (or_default metadata_default
            (returned (outcome metadata_payload
                         (next_response net HeliusGetAsset mint log)))),
     log ++ [{| call_endpoint := HeliusGetAsset; call_mint := mint |}]).
Proof. unfold get_token_metadata. run_source metadata_payload. Qed.

Lemma get_token_supply_info_run mint log :
  get_token_supply_info net mint log =
    (Val (or_default supply_default
            (returned (outcome supply_payload
                         (next_response net SolanaGetTokenSupply mint log)))),
     log ++ [{| call_endpoint := SolanaGetTokenSupply; call_mint := mint |}]).
Proof. unfold get_token_supply_info. run_source supply_payload. Qed.

Lemma get_holders_info_fallback_run mint log :
  get_holders_info_fallback net mint log =
    (Val (or_default holders_zero
            (returned (outcome fallback_payload
                         (next_response net SolanaGetProgramAccounts mint log)))),
     log ++ [{| call_endpoint := SolanaGetProgramAccounts; call_mint := mint |}]).
Proof. unfold get_holders_info_fallback. run_source fallback_payload. Qed.

Lemma get_holders_info_solscan_alternative_run mint log :
  get_holders_info_solscan_alternative net mint log =
    (Val (or_default holders_zero
            (returned (outcome solscan_payload
                         (next_response net SolscanTokenHolders mint log)))),
     log ++ [{| call_endpoint := SolscanTokenHolders; call_mint := mint |}]).
Proof. unfold get_holders_info_solscan_alternative. run_source solscan_payload. Qed.

Lemma check_rug_pull_risk_run mint log :
  check_rug_pull_risk net mint log =
    (Val (or_default false
            (returned (outcome rug_pull_payload
                         (next_response net SolanaGetAccountInfo mint log)))),
     log ++ [{| call_endpoint := SolanaGetAccountInfo; call_mint := mint |}]).
Proof. unfold check_rug_pull_risk. run_source rug_pull_payload. Qed.

(** Strategy A returns from its own [try] block, or hands over to
    [get_holders_info_fallback]. *)
Lemma get_holders_info_helius_run mint log :
  get_holders_info_helius net mint log =
    let log' :=
      log ++ [{| call_endpoint := HeliusGetTokenAccounts; call_mint := mint |}] in
    match returned (outcome helius_payload
                      (next_response net HeliusGetTokenAccounts mint log)) with
    | Some d => (Val d, log')
    | None => get_holders_info_fallback net mint log'
    end.
Proof.
  unfold get_holders_info_helius. run_source helius_payload.
Qed.

End Runs.

(** ** The holder fallback chain *)

Section Chain.
Context {B : Builtins} (net : network).

Lemma holders_metrics_positive holders_data d :
  holders_metrics holders_data = Some d -> hi_holders d > 0.
Proof.
  unfold holders_metrics.
  destruct (Z.of_nat (List.length holders_data) >? 0) eqn:E; [| discriminate].
  intros H. injection H as <-. cbn. apply Z.gtb_lt in E. lia.
Qed.

Lemma helius_payload_positive data d :
  helius_payload data = Val (Some d) -> hi_holders d > 0.
Proof.
  unfold helius_payload, exc_bind.
  destruct (Py.get data "result" (JObj [])) as [result |]; [| discriminate].
  destruct (Py.get result "token_accounts" (JList [])) as [accounts |];
    [| discriminate].
  destruct (truthy accounts); [| discriminate].
  destruct (Py.iter accounts) as [items |]; [| discriminate].
  destruct (helius_collect items []) as [holders_data |]; [| discriminate].
  intros H. injection H as H. eapply holders_metrics_positive; eauto.
Qed.

Lemma fallback_payload_positive data d :
  fallback_payload data = Val (Some d) -> hi_holders d > 0.
Proof.
  unfold fallback_payload, exc_bind.
  destruct (Py.get data "result" (JList [])) as [result |]; [| discriminate].
  destruct (Py.iter result) as [items |]; [| discriminate].
  destruct (fallback_collect items []) as [holders_data |]; [| discriminate].
  intros H. injection H as H. eapply holders_metrics_positive; eauto.
Qed.

(** A true value has a positive length. *)
Lemma truthy_len_positive v n : truthy v = true -> Py.len v = Val n -> n > 0.
Proof.
  destruct v as [| b | k | x | s | l | kvs]; cbn; try discriminate.
  - destruct s; cbn; [discriminate |]. intros _ H. injection H as <-. lia.
  - destruct l; [discriminate |]. intros _ H. injection H as <-. cbn [List.length]. lia.
  - destruct kvs; [discriminate |]. intros _ H. injection H as <-. cbn [List.length]. lia.
Qed.

Lemma solscan_payload_cases data d :
  solscan_payload data = Val (Some d) -> hi_holders d > 0 \/ d = holders_zero.
Proof.
  unfold solscan_payload.
  destruct (solscan_select data) as [holders_data |].
  - destruct (truthy holders_data) eqn:Ht; [| discriminate].
    unfold exc_bind at 1.
    destruct (Py.len holders_data) as [n |] eqn:Hn; [| discriminate].
    pose proof (truthy_len_positive _ _ Ht Hn) as Hpos.
    match goal with
    | |- exc_bind ?c _ = _ -> _ => destruct c as [share |]
    end; cbn; [| discriminate].
    intros H. injection H as <-. left. exact Hpos.
  - intros H. injection H as <-. now right.
Qed.

Lemma outcome_cases {A : Type} (payload : json -> exc (option A)) r :
  returned (outcome payload r) = None \/
  exists data d, payload data = Val (Some d) /\
                 returned (outcome payload r) = Some d.
Proof.
  unfold outcome, returned, exc_bind.
  destruct r as [response |]; [| now left].
  destruct (status response =? 200); [| now left].
  destruct (json_body response) as [data |]; [| now left].
  destruct (payload data) as [[d |] |] eqn:E; [| now left | now left].
  right. exists data, d. rewrite E. now split.
Qed.

Lemma strategy_A_cases mint log : zero_or_found (strategy_A net mint log).
Proof.
  unfold strategy_A, zero_or_found.
  destruct (outcome_cases helius_payload
              (next_response net HeliusGetTokenAccounts mint log))
    as [-> | (data & d & Hp & ->)]; cbn; [now right |].
  left. eapply helius_payload_positive; eauto.
Qed.

Lemma strategy_B_cases mint log : zero_or_found (strategy_B net mint log).
Proof.
  unfold strategy_B, zero_or_found.
  destruct (outcome_cases solscan_payload
              (next_response net SolscanTokenHolders mint log))
    as [-> | (data & d & Hp & ->)]; cbn; [now right |].
  eapply solscan_payload_cases; eauto.
Qed.

Lemma strategy_C_cases mint log : zero_or_found (strategy_C net mint log).
Proof.
  unfold strategy_C, zero_or_found.
  destruct (outcome_cases fallback_payload
              (next_response net SolanaGetProgramAccounts mint log))
    as [-> | (data & d & Hp & ->)]; cbn; [now right |].
  left. eapply fallback_payload_positive; eauto.
Qed.

Lemma zero_or_found_test d :
  zero_or_found d ->
  (hi_holders d >? 0) = true /\ (hi_holders d =? 0) = false \/
  (hi_holders d >? 0) = false /\ (hi_holders d =? 0) = true /\ d = holders_zero.
Proof.
  intros [H | ->].
  - left. split; [apply Z.gtb_lt | apply Z.eqb_neq]; lia.
  - right. cbn. auto.
Qed.

(** The resolver of the code: A, then C inside A's coroutine, then B, then
    C once more; each request is issued only when the ones before it found
    no holder. *)
Lemma get_holders_info_run mint log :
  let cA := {| call_endpoint := HeliusGetTokenAccounts; call_mint := mint |} in
  let cB := {| call_endpoint := SolscanTokenHolders; call_mint := mint |} in
  let cC := {| call_endpoint := SolanaGetProgramAccounts; call_mint := mint |} in
  let a := strategy_A net mint log in
  let c1 := strategy_C net mint log in
  let b := strategy_B net mint log in
  let c2 := strategy_C net mint (log ++ [cC]) in
  get_holders_info net mint log =
    if hi_holders a >? 0 then (Val a, log ++ [cA])
    else if hi_holders c1 >? 0 then (Val c1, log ++ [cA; cC])
    else if hi_holders b >? 0 then (Val b, log ++ [cA; cC; cB])
    else (Val c2, log ++ [cA; cC; cB; cC]).
Proof.
  intros cA cB cC a c1 b c2.
  assert (Hc1 : strategy_C net mint (log ++ [cA]) = c1).
  { unfold c1, strategy_C, cA. now rewrite next_response_other. }
  assert (Hb : strategy_B net mint ((log ++ [cA]) ++ [cC]) = b).
  { unfold b, strategy_B, cA, cC. now rewrite !next_response_other. }
  assert (Hc2 : strategy_C net mint (((log ++ [cA]) ++ [cC]) ++ [cB]) = c2).
  { unfold c2, strategy_C, cA, cB, cC, next_response.
    rewrite count_occ_snoc_other by discriminate.
    rewrite !count_occ_snoc_same.
    rewrite count_occ_snoc_other by discriminate.
    reflexivity. }
  unfold get_holders_info, bind.
  rewrite get_holders_info_helius_run. cbv zeta.
  fold cA.
  pose proof (strategy_A_cases mint log) as Ha. fold a in Ha.
  unfold strategy_A in a.
  destruct (returned (outcome helius_payload
                        (next_response net HeliusGetTokenAccounts mint log)))
    as [d |] eqn:Er.
  - (* A returned a dictionary: it holds a positive count *)
    cbn in a. subst a.
    destruct (zero_or_found_test _ Ha) as [[Hg Hz] | (Hg & Hz & Hd)].
    + rewrite Hg. unfold ret. rewrite Hz. cbn. now rewrite Hz.
    + exfalso.
      destruct (outcome_cases helius_payload
                  (next_response net HeliusGetTokenAccounts mint log))
        as [E | (data & d' & Hp & E)]; rewrite Er in E; [discriminate |].
      injection E as <-. apply helius_payload_positive in Hp.
      rewrite Z.gtb_ltb, Z.ltb_ge in Hg. lia.
  - (* A found nothing: its coroutine asks C *)
    cbn in a. subst a. cbn [holders_zero hi_holders Z.gtb Z.compare].
    rewrite get_holders_info_fallback_run. fold cC. fold (strategy_C net mint (log ++ [cA])).
    rewrite Hc1.
    destruct (zero_or_found_test _ (strategy_C_cases mint log))
      as [[Hg Hz] | (Hg & Hz & Hd)]; fold c1 in Hg, Hz.
    + rewrite Hg, Hz. unfold ret. rewrite Hz. now rewrite <- app_assoc.
    + rewrite Hg, Hz.
      rewrite get_holders_info_solscan_alternative_run. fold cB.
      fold (strategy_B net mint ((log ++ [cA]) ++ [cC])). rewrite Hb.
      destruct (zero_or_found_test _ (strategy_B_cases mint log))
        as [[Hgb Hzb] | (Hgb & Hzb & Hdb)]; fold b in Hgb, Hzb.
      * rewrite Hgb, Hzb. unfold ret. now rewrite <- !app_assoc.
      * rewrite Hgb, Hzb.
        rewrite get_holders_info_fallback_run.
        fold (strategy_C net mint (((log ++ [cA]) ++ [cC]) ++ [cB])).
        rewrite Hc2. unfold ret. fold cC. now rewrite <- !app_assoc.
Qed.

End Chain.

(** The value the resolver returns: the first of A, C, B, C with a holder. *)
Lemma get_holders_info_value {B : Builtins} (net : network) (mint : string)
    (log : list call) :
  fst (get_holders_info net mint log) =
    Val (Spec.first_with_holders
           [strategy_A net mint log; strategy_C net mint log;
            strategy_B net mint log;
            strategy_C net mint
              (log ++ [{| call_endpoint := SolanaGetProgramAccounts;
                          call_mint := mint |}])]).
Proof.
  rewrite (get_holders_info_run net mint log). cbv zeta.
  cbn [Spec.first_with_holders].
  destruct (hi_holders (strategy_A net mint log) >? 0); [reflexivity |].
  destruct (hi_holders (strategy_C net mint log) >? 0); [reflexivity |].
  destruct (hi_holders (strategy_B net mint log) >? 0); [reflexivity |].
  cbn [fst].
  destruct (zero_or_found_test _
              (strategy_C_cases net mint
                 (log ++ [{| call_endpoint := SolanaGetProgramAccounts;
                             call_mint := mint |}])))
    as [[Hg _] | (Hg & _ & Hd)]; rewrite Hg; [reflexivity |].
  now rewrite Hd.
Qed.

(** The requests the resolver issues, in order. *)
Lemma get_holders_info_calls {B : Builtins} (net : network) (mint : string)
    (log : list call) :
  let cA := {| call_endpoint := HeliusGetTokenAccounts; call_mint := mint |} in
  let cB := {| call_endpoint := SolscanTokenHolders; call_mint := mint |} in
  let cC := {| call_endpoint := SolanaGetProgramAccounts; call_mint := mint |} in
  snd (get_holders_info net mint log) =
    log ++ (if hi_holders (strategy_A net mint log) >? 0 then [cA]
            else if hi_holders (strategy_C net mint log) >? 0 then [cA; cC]
            else if hi_holders (strategy_B net mint log) >? 0 then [cA; cC; cB]
            else [cA; cC; cB; cC]).
Proof.
  cbv zeta. rewrite (get_holders_info_run net mint log). cbv zeta.
  destruct (hi_holders (strategy_A net mint log) >? 0); [reflexivity |].
  destruct (hi_holders (strategy_C net mint log) >? 0); [reflexivity |].
  destruct (hi_holders (strategy_B net mint log) >? 0); reflexivity.
Qed.

(** C1 (amended): [get_holders_info] tries strategy A first; when A finds
    no holder, A's own coroutine tries strategy C; when C finds none either,
    strategy B is tried, and after B strategy C a second time.  The result
    is the output of the first of A, C, B, C that finds a holder, and the
    all-zero distribution when none does; the log holds exactly the
    requests of the strategies tried. *)
Theorem holders_fallback_chain {B : Builtins} (net : network) (mint : string)
    (log : list call) :
  let cA := {| call_endpoint := HeliusGetTokenAccounts; call_mint := mint |} in
  let cB := {| call_endpoint := SolscanTokenHolders; call_mint := mint |} in
  let cC := {| call_endpoint := SolanaGetProgramAccounts; call_mint := mint |} in
  let a := strategy_A net mint log in
  let c1 := strategy_C net mint log in
  let b := strategy_B net mint log in
  let c2 := strategy_C net mint (log ++ [cC]) in
  fst (get_holders_info net mint log) =
    Val (Spec.first_with_holders [a; c1; b; c2]) /\
  snd (get_holders_info net mint log) =
    log ++ (if hi_holders a >? 0 then [cA]
            else if hi_holders c1 >? 0 then [cA; cC]
            else if hi_holders b >? 0 then [cA; cC; cB]
            else [cA; cC; cB; cC]).
Proof.
  cbv zeta. split.
  - apply get_holders_info_value.
  - apply (get_holders_info_calls net mint log).
Qed.

(** C1 as stated fails: with the indexer down, Solscan listing two holders
    and the ledger node one, strategy A yields no holder and strategy B
    yields two, yet the resolver returns what strategy C yields and never
    asks Solscan. *)
Lemma fallback_order_counterexample :
  hi_holders (strategy_A (B := Decimal.builtins) net_indexer_down usdc []) = 0 /\
  hi_holders (strategy_B (B := Decimal.builtins) net_indexer_down usdc []) = 2 /\
  get_holders_info (B := Decimal.builtins) net_indexer_down usdc [] =
    (Val (strategy_C (B := Decimal.builtins) net_indexer_down usdc []),
     [{| call_endpoint := HeliusGetTokenAccounts; call_mint := usdc |};
      {| call_endpoint := SolanaGetProgramAccounts; call_mint := usdc |}]) /\
  fst (get_holders_info (B := Decimal.builtins) net_indexer_down usdc []) <>
    Val (claimed_resolution (B := Decimal.builtins) net_indexer_down usdc []).
Proof.
  repeat split; try reflexivity.
  vm_compute. discriminate.
Qed.

(** ** The aggregator *)

Lemma tally_set_score d score explanations :
  tally (set_score d score explanations) = tally d.
Proof. reflexivity. Qed.

(** On four returned dictionaries the merge cannot raise. *)
Lemma assemble_values mint dex md si hi rug :
  assemble mint (Val dex) (Val md) (Val si) (Val hi) rug =
    let d := merged mint dex md si hi rug in
    Val (AnalysisDict
           (set_score d (fst (calculate_score d)) (snd (calculate_score d)))).
Proof.
  unfold assemble, merged, result_get. cbn [exc_bind].
  destruct (si_supply si =? 0); destruct (si_decimals si =? 0); reflexivity.
Qed.

Section Aggregator.
Context {B : Builtins} (net : network).

Lemma is_valid_mint_spec mint :
  is_valid_mint mint = true <->
  32 <= Z.of_nat (String.length mint) <= 44 /\ b58decode mint <> None.
Proof.
  unfold is_valid_mint.
  destruct (String.eqb_spec mint "") as [-> | Hne]; cbn [orb].
  - cbn. split; [discriminate | lia].
  - destruct (Z.ltb_spec (Z.of_nat (String.length mint)) 32); cbn [orb].
    + split; [discriminate | lia].
    + destruct (Z.gtb_spec (Z.of_nat (String.length mint)) 44).
      * split; [discriminate | lia].
      * destruct (b58decode mint) as [bytes |].
        -- split; [intros _ | reflexivity]. split; [lia | discriminate].
        -- split; [discriminate | intros [_ Hd]; congruence].
Qed.

Lemma holders_of_run mint log :
  fst (get_holders_info net mint log) = Val (holders_of net mint log).
Proof. apply get_holders_info_value. Qed.

(** The log after a run only grows. *)
Lemma get_holders_info_log mint log :
  exists calls, snd (get_holders_info net mint log) = log ++ calls /\
    Forall (fun c => call_endpoint c = HeliusGetTokenAccounts \/
                     call_endpoint c = SolscanTokenHolders \/
                     call_endpoint c = SolanaGetProgramAccounts) calls /\
    Forall (fun c => call_mint c = mint) calls.
Proof.
  pose proof (get_holders_info_calls net mint log) as H. cbv zeta in H.
  eexists. split; [exact H |].
  repeat match goal with
  | |- context [if ?c then _ else _] => destruct c
  end; split; repeat (apply Forall_cons || apply Forall_nil); cbn; auto.
Qed.


Lemma next_response_app_other ep mint log calls :
  Forall (fun c => call_endpoint c <> ep) calls ->
  next_response net ep mint (log ++ calls) = next_response net ep mint log.
Proof.
  intros Hall. unfold next_response. rewrite count_occ_app.
  replace (count_occ call_eq_dec calls
             {| call_endpoint := ep; call_mint := mint |}) with 0%nat.
  - now rewrite Nat.add_0_r.
  - symmetry. apply count_occ_not_In. intros Hin.
    rewrite Forall_forall in Hall. apply (Hall _ Hin). reflexivity.
Qed.

(** A valid identifier: the four sources run, then the risk check, and the
    merge works on four returned dictionaries. *)
Lemma analyze_token_run mint log :
  is_valid_mint mint = true ->
  exists calls,
    analyze_token net mint log =
      (assemble mint (Val (market_of net mint log))
         (Val (metadata_of net mint log)) (Val (supply_of net mint log))
         (Val (holders_of net mint log)) (risk_of net mint log),
       log ++ calls).
Proof.
  intros Hvalid. unfold analyze_token. rewrite Hvalid. cbn [negb].
  unfold try_except, bind, settle, lift.
  rewrite get_dexscreener_data_run, get_token_metadata_run,
    get_token_supply_info_run.
  set (l3 := ((log ++ _) ++ _) ++ _).
  pose proof (holders_of_run mint l3) as Hh.
  destruct (get_holders_info_log mint l3) as (calls & Hlog & Hep & _).
  destruct (get_holders_info net mint l3) as [r l4]. cbn [fst snd] in Hh, Hlog.
  subst r l4. rewrite check_rug_pull_risk_run.
  assert (Hl3 : l3 = log ++
            [{| call_endpoint := DexScreenerTokens; call_mint := mint |};
             {| call_endpoint := HeliusGetAsset; call_mint := mint |};
             {| call_endpoint := SolanaGetTokenSupply; call_mint := mint |}]).
  { unfold l3. now rewrite <- !app_assoc. }
  assert (Hmd : metadata_of net mint
                  (log ++ [{| call_endpoint := DexScreenerTokens;
                              call_mint := mint |}]) = metadata_of net mint log).
  { unfold metadata_of. now rewrite next_response_other. }
  assert (Hsi : supply_of net mint
                  ((log ++ [{| call_endpoint := DexScreenerTokens;
                               call_mint := mint |}])
                   ++ [{| call_endpoint := HeliusGetAsset; call_mint := mint |}])
                = supply_of net mint log).
  { unfold supply_of. now rewrite !next_response_other. }
  assert (Hfresh : forall ep,
            ep <> DexScreenerTokens -> ep <> HeliusGetAsset ->
            ep <> SolanaGetTokenSupply ->
            next_response net ep mint l3 = next_response net ep mint log).
  { intros ep H1 H2 H3. rewrite Hl3. apply next_response_app_other.
    repeat (apply Forall_cons || apply Forall_nil); cbn; congruence. }
  assert (Hhi : holders_of net mint l3 = holders_of net mint log).
  { unfold holders_of, strategy_A, strategy_B, strategy_C.
    rewrite !Hfresh by discriminate.
    do 3 f_equal. unfold next_response, l3.
    rewrite !count_occ_snoc_same.
    now rewrite !count_occ_snoc_other by discriminate. }
  assert (Hrisk : risk_of net mint (l3 ++ calls) = risk_of net mint log).
  { rewrite Hl3, <- app_assoc. unfold risk_of.
    rewrite next_response_app_other; [reflexivity |].
    apply Forall_app. split.
    - repeat (apply Forall_cons || apply Forall_nil); discriminate.
    - eapply Forall_impl; [| exact Hep]. cbn. intros c [-> | [-> | ->]]; discriminate. }
  fold (market_of net mint log).
  fold (metadata_of net mint (log ++ [{| call_endpoint := DexScreenerTokens;
                                         call_mint := mint |}])).
  fold (supply_of net mint
          ((log ++ [{| call_endpoint := DexScreenerTokens; call_mint := mint |}])
           ++ [{| call_endpoint := HeliusGetAsset; call_mint := mint |}])).
  fold (risk_of net mint (l3 ++ calls)).
  rewrite Hmd, Hsi, Hhi, Hrisk.
  rewrite assemble_values. cbv zeta.
  eexists. rewrite Hl3, <- !app_assoc. reflexivity.
Qed.

End Aggregator.

(** C3: a string shorter than 32 or longer than 44 characters, or one that
    [b58decode] rejects, fails validation, and [analyze_token] returns the
    invalid-identifier error with the call log untouched (no request was
    issued); a string of 32 to 44 characters that decodes passes. *)
Theorem invalid_mint_rejected_before_network {B : Builtins} (net : network)
    (mint : string) (log : list call) :
  let n := Z.of_nat (String.length mint) in
  ((n < 32 \/ 44 < n \/ b58decode mint = None) ->
     is_valid_mint mint = false /\
     analyze_token net mint log = (Val (ErrorDict MintInvalide), log)) /\
  (32 <= n <= 44 /\ b58decode mint <> None -> is_valid_mint mint = true).
Proof.
  cbv zeta. split.
  - intros Hbad.
    assert (Hinv : is_valid_mint mint = false).
    { destruct (is_valid_mint mint) eqn:E; [| reflexivity].
      apply is_valid_mint_spec in E. destruct E as [Hlen Hdec].
      destruct Hbad as [H | [H | H]]; [lia | lia | congruence]. }
    split; [exact Hinv |].
    unfold analyze_token. rewrite Hinv. reflexivity.
  - intros H. now apply is_valid_mint_spec.
Qed.

Example usdc_mint_is_valid : is_valid_mint (B := Decimal.builtins) usdc = true.
Proof. reflexivity. Qed.

Example short_mint_is_rejected :
  analyze_token (B := Decimal.builtins) net_healthy "So11111111111111111111" [] =
    (Val (ErrorDict MintInvalide), []).
Proof. reflexivity. Qed.

(** ['0'], ['O'], ['I'] and ['l'] are not base-58 digits. *)
Example non_base58_mint_is_rejected :
  analyze_token (B := Decimal.builtins) net_healthy
    "0OIl5AufqSSqeM2qN1xzybapC8G4wEGGkZwyTDt1v" [] =
    (Val (ErrorDict MintInvalide), []).
Proof. reflexivity. Qed.





Example healthy_supply_is_the_ledger_supply :
  exists d calls,
    analyze_token (B := Decimal.builtins) net_healthy usdc [] =
      (Val (AnalysisDict d), calls) /\
    md_supply (metadata_of (B := Decimal.builtins) net_healthy usdc []) =
      5000000000000 /\
    si_supply (supply_of (B := Decimal.builtins) net_healthy usdc []) =
      10000000000000 /\
    ad_supply d = Some 10000000000000 /\ ad_decimals d = Some 6.
Proof. do 2 eexists. repeat split; vm_compute; reflexivity. Qed.

(** ** The market cap *)





(** Outside the model of the specification: negative decimals give 0. *)
Lemma calculate_market_cap_negative_decimals price_usd supply decimals :
  decimals < 0 -> calculate_market_cap price_usd supply decimals = 0%Q.
Proof.
  intros Hd. unfold calculate_market_cap.
  destruct (Z.ltb_spec decimals 0) as [_ | H]; [| lia].
  now rewrite orb_true_r.
Qed.

(** ** The risk assessor *)

Lemma is_not_none_true v : is_not_none v = true <-> v <> JNull.
Proof. destruct v; cbn; split; intros; try congruence; try discriminate. Qed.

Lemma authority_present key info :
  is_not_none (match assoc key info with Some v => v | None => JNull end) = true
  <-> Spec.has_authority key info.
Proof.
  unfold Spec.has_authority. rewrite is_not_none_true.
  destruct (assoc key info) as [v |].
  - split.
    + intros H. now exists v.
    + intros (v' & E & H). now injection E as <-.
  - split; [congruence | intros (v' & E & _); discriminate].
Qed.

(** The payload returns [True] exactly on an account whose parsed data
    carry an authority that is not null. *)
Lemma rug_pull_payload_true data :
  rug_pull_payload data = Val (Some true) <->
  exists info,
    Spec.json_path ["result"; "value"; "data"; "parsed"; "info"] data
      = Some (JObj info) /\
    (Spec.has_authority "freezeAuthority" info \/
     Spec.has_authority "mintAuthority" info).
Proof.
  unfold rug_pull_payload. cbn [Spec.json_path].
  destruct data as [| | | | | | kvs];
    try (split; [discriminate | intros (info & H & _); discriminate]).
  cbn [Py.get exc_bind].
  destruct (assoc "result" kvs) as [result |];
    [| split; [discriminate | intros (info & H & _); discriminate]].
  destruct result as [| | | | | | kvs_r];
    try (split; [discriminate | intros (info & H & _); discriminate]).
  cbn [Py.get exc_bind].
  destruct (assoc "value" kvs_r) as [value |];
    [| split; [discriminate | intros (info & H & _); discriminate]].
  destruct value as [| | | | | | kvs_v];
    try (split;
         [ cbn;
           repeat match goal with
           | |- context [if ?c then _ else _] => destruct c
           end; discriminate
         | intros (info & H & _); discriminate ]).
  destruct (truthy (JObj kvs_v)) eqn:Htv.
  2: { split; [discriminate |].
       intros (info & H & _). destruct kvs_v; [discriminate | discriminate]. }
  cbn [Py.get Py.getitem exc_bind].
  destruct (assoc "data" kvs_v) as [d |];
    [| split; [discriminate | intros (info & H & _); discriminate]].
  destruct (truthy d) eqn:Htd.
  2: { split; [discriminate |].
       intros (info & H & _).
       destruct d as [| | | | | | kvs_d]; try discriminate.
       destruct kvs_d; [discriminate | discriminate]. }
  destruct d as [| | | | | | kvs_d];
    try (split; [discriminate | intros (info & H & _); discriminate]).
  cbn [Py.get exc_bind].
  destruct (assoc "parsed" kvs_d) as [parsed |].
  2: { split; [discriminate | intros (info & H & _); discriminate]. }
  destruct parsed as [| | | | | | kvs_p];
    try (split; [discriminate | intros (info & H & _); discriminate]).
  cbn [Py.get exc_bind].
  destruct (assoc "info" kvs_p) as [info0 |].
  2: { split; [discriminate | intros (info & H & _); discriminate]. }
  destruct info0 as [| | | | | | kvs_i];
    try (split; [discriminate | intros (info & H & _); discriminate]).
  cbn [Py.get exc_bind].
  split.
  - intros H. injection H as H. apply orb_true_iff in H.
    exists kvs_i. split; [reflexivity |].
    destruct H as [H | H]; [left | right]; now apply authority_present.
  - intros (info & E & H). injection E as <-.
    do 2 f_equal. apply orb_true_iff.
    destruct H as [H | H]; [left | right]; now apply authority_present.
Qed.

(** C8: [check_rug_pull_risk] returns [True] exactly when the request is
    answered with status 200 and a body whose parsed account carries a
    [freezeAuthority] or a [mintAuthority] that is not null; it never
    raises, and on a transport failure, an undecodable body, a payload it
    cannot read or another status it returns [False]. *)
Theorem rug_pull_risk_flags (net : network) (mint : string) (log : list call) :
  let r := next_response net SolanaGetAccountInfo mint log in
  (fst (check_rug_pull_risk net mint log) = Val true <->
     exists response body info,
       r = Val response /\ status response = 200 /\
       json_body response = Val body /\
       Spec.json_path ["result"; "value"; "data"; "parsed"; "info"] body
         = Some (JObj info) /\
       (Spec.has_authority "freezeAuthority" info \/
        Spec.has_authority "mintAuthority" info)) /\
  (exists b, fst (check_rug_pull_risk net mint log) = Val b) /\
  (forall e, r = Raise e -> fst (check_rug_pull_risk net mint log) = Val false) /\
  (forall response e,
     r = Val response -> json_body response = Raise e ->
     fst (check_rug_pull_risk net mint log) = Val false) /\
  (forall response body e,
     r = Val response -> json_body response = Val body ->
     rug_pull_payload body = Raise e ->
     fst (check_rug_pull_risk net mint log) = Val false) /\
  (forall response,
     r = Val response -> status response <> 200 ->
     fst (check_rug_pull_risk net mint log) = Val false).
Proof.
  intros r. rewrite check_rug_pull_risk_run. cbn [fst]. fold r.
  split; [| split; [| split; [| split; [| split]]]].
  - split.
    + intros H. injection H as H.
      unfold outcome, exc_bind in H.
      destruct r as [response |]; [| discriminate].
      destruct (Z.eqb_spec (status response) 200) as [Hs | Hs]; [| discriminate].
      destruct (json_body response) as [body |] eqn:Hb; [| discriminate].
      destruct (rug_pull_payload body) as [[[|] |] |] eqn:Hp; try discriminate.
      apply rug_pull_payload_true in Hp. destruct Hp as (info & Hpath & Hauth).
      now exists response, body, info.
    + intros (response & body & info & -> & Hs & Hb & Hpath & Hauth).
      unfold outcome, exc_bind. rewrite Hs, Hb. cbn [Z.eqb Pos.eqb].
      assert (Hp : rug_pull_payload body = Val (Some true)).
      { apply rug_pull_payload_true. now exists info. }
      now rewrite Hp.
  - eexists. reflexivity.
  - intros e ->. reflexivity.
  - intros response e -> Hb. unfold outcome, exc_bind. rewrite Hb.
    now destruct (status response =? 200).
  - intros response body e -> Hb Hp. unfold outcome, exc_bind. rewrite Hb, Hp.
    now destruct (status response =? 200).
  - intros response -> Hs. unfold outcome, exc_bind.
    destruct (Z.eqb_spec (status response) 200); [contradiction | reflexivity].
Qed.

Example live_freeze_authority_is_a_risk :
  fst (check_rug_pull_risk net_healthy usdc []) = Val true.
Proof. reflexivity. Qed.

Example revoked_authorities_are_no_risk :
  rug_pull_payload account_with_revoked_authorities = Val (Some false).
Proof. reflexivity. Qed.

(** An account that is not a parsed mint: its [data] is a list of strings,
    reading it raises, and the check answers [False]. *)
Example unparsed_account_is_no_risk :
  rug_pull_payload account_not_parsed = Raise AttributeError /\
  fst (check_rug_pull_risk (fun _ _ => ok account_not_parsed) usdc []) = Val false.
Proof. split; reflexivity. Qed.

(** ** Sorting, sums and rounding *)

Section Sorting.
Context {A : Type} (key : A -> Q).






End Sorting.








Lemma round_half_even_comp x y : (x == y)%Q -> Py.round_half_even x = Py.round_half_even y.
Proof.
  intros E. unfold Py.round_half_even.
  rewrite (Qfloor_comp _ _ E).
  assert (Hc : ((x - inject_Z (Qfloor y) ?= 1 # 2) =
                (y - inject_Z (Qfloor y) ?= 1 # 2))%Q).
  { apply Qcompare_comp; [now rewrite E | reflexivity]. }
  now rewrite Hc.
Qed.



Lemma Qgt_bool_true x y : Py.Qgt_bool x y = true <-> (y < x)%Q.
Proof.
  unfold Py.Qgt_bool. rewrite negb_true_iff. split.
  - apply Qle_bool_false.
  - intros H. destruct (Qle_bool x y) eqn:E; [| reflexivity].
    apply Qle_bool_iff in E. exfalso. apply (Qlt_irrefl y).
    now apply Qlt_le_trans with x.
Qed.

(** ** The top-10 share of each strategy *)



Section Collect.
Context {B : Builtins}.





End Collect.






Section Solscan.
Context {B : Builtins}.


End Solscan.

(** ** The first ten of a descending list are the ten largest *)





(** Twelve holders with balances 1 to 12: the ten largest hold 75 of 78,
    that is 96.15 percent. *)
Example twelve_holders_share_A :
  helius_payload (B := Decimal.builtins) (token_accounts_of twelve_balances) =
    Val (Some {| hi_holders := 12; hi_top_10_share := 96.15 |}).
Proof. reflexivity. Qed.

Example twelve_holders_share_B :
  solscan_payload (B := Decimal.builtins)
    (solscan_listing_of ["5"; "12"; "1"; "7"; "3"; "10"; "2"; "11"; "4"; "9";
                         "6"; "8"]) =
    Val (Some {| hi_holders := 12; hi_top_10_share := 96.15 |}).
Proof. reflexivity. Qed.

Example spec_share_of_twelve :
  Spec.top10_share (map inject_Z twelve_balances) = 96.15%Q.
Proof. reflexivity. Qed.

(** A listing whose amounts are all 0: the division is not attempted. *)
Example zero_total_share_B :
  solscan_payload (B := Decimal.builtins) (solscan_listing_of ["0"; "0"]) =
    Val (Some {| hi_holders := 2; hi_top_10_share := Py.round2 0 |}).
Proof. reflexivity. Qed.

(** A share of exactly 62.345 is rounded to the even neighbour 62.34. *)
Example round2_tie_goes_to_even : Py.round2 62.345 = 62.34%Q.
Proof. reflexivity. Qed.

(** ** Further properties of the code *)

(** X1: [gather] is called with [return_exceptions=True], so a coroutine
    that raised would hand the merge an exception object; reading it with
    [get] raises [AttributeError], whichever of the four results it is, and
    the handler of [analyze_token] then returns the analysis-error
    dictionary. *)
Theorem exception_object_fails_the_merge (mint : string) (e : exn)
    (dex : dex_data) (md : metadata) (si : supply_info) (hi : holders_info)
    (rug : bool) :
  assemble mint (Raise e) (Val md) (Val si) (Val hi) rug = Raise AttributeError /\
  assemble mint (Val dex) (Raise e) (Val si) (Val hi) rug = Raise AttributeError /\
  assemble mint (Val dex) (Val md) (Raise e) (Val hi) rug = Raise AttributeError /\
  assemble mint (Val dex) (Val md) (Val si) (Raise e) rug = Raise AttributeError /\
  try_except (lift (assemble mint (Raise e) (Val md) (Val si) (Val hi) rug))
    (fun e' => ret (ErrorDict (ErreurAnalyse e'))) [] =
    (Val (ErrorDict (ErreurAnalyse AttributeError)), []).
Proof.
  unfold assemble, result_get, try_except, lift, ret. cbn [exc_bind].
  repeat split;
    destruct (si_supply si =? 0); destruct (si_decimals si =? 0); reflexivity.
Qed.

(** The two end-to-end scenarios of the specification score 20 and 0. *)
Example end_to_end_scenarios :
  fst (calculate_score scenario_best) = 20 /\
  fst (calculate_score scenario_worst) = 0 /\
  ad_rug_pull_risk scenario_worst = Some true.
Proof. repeat split. Qed.

(** X3: a record without [price_change_24h] is read as a change of 0 and
    earns the 2 stability points; the record with no key at all scores 2. *)
Theorem missing_price_change_scores_stable (data : analysis_data) (st : acc) :
  gain score_stability
    (Spec.with_defaults data) st = gain score_stability data st /\
  gain score_stability empty_data st = 2 /\
  fst (calculate_score empty_data) = 2.
Proof.
  split; [reflexivity |]. split; [| reflexivity].
  unfold gain, score_stability. cbn. lia.
Qed.

Lemma step_appends_one_line (step : analysis_data -> acc -> acc) data st :
  In step score_steps ->
  List.length (snd (step data st)) = S (List.length (snd st)).
Proof.
  unfold score_steps. cbn [In].
  intros [<- | [<- | [<- | [<- | [<- | [<- | [<- | [<- | []]]]]]]]];
    cbv beta delta [score_pools score_volume score_liquidity score_stability
      score_market_cap score_holders score_distribution score_security] zeta;
    repeat match goal with
    | |- context [if ?c then _ else _] => destruct c
    end;
    cbn [award explain snd]; rewrite length_app; cbn [List.length]; lia.
Qed.

(** [calculate_score] emits eight explanation lines, whichever bands are
    hit. *)
Lemma explanation_count (data : analysis_data) :
  List.length (snd (calculate_score data)) = List.length score_steps /\
  List.length score_steps = 8%nat.
Proof.
  split; [| reflexivity].
  unfold calculate_score, tally. cbn [snd].
  rewrite !step_appends_one_line by (unfold score_steps; cbn [In]; tauto).
  reflexivity.
Qed.

(** X5: [calculate_market_cap] answers 0 for negative decimals. *)
Theorem market_cap_negative_decimals (price_usd : Q) (supply decimals : Z) :
  decimals < 0 -> calculate_market_cap price_usd supply decimals = 0%Q.
Proof. apply calculate_market_cap_negative_decimals. Qed.

Lemma market_cap_negative_decimals_witness :
  -1 < 0 /\ calculate_market_cap 2 1000 (-1) = 0%Q.
Proof.
  split; [lia |]. apply (market_cap_negative_decimals 2 1000 (-1)). lia.
Defined.

Section Market.
Context {B : Builtins}.

(** Reading a key of a string raises: a [dict] or a [str] given for
    ["pairs"] cannot be summed over. *)
Lemma pair_volume_of_string s : pair_volume (JStr s) = Raise AttributeError.
Proof. reflexivity. Qed.


End Market.


(** ** More on the scoring engine *)

Ltac mono_solve :=
  unfold gain;
  cbv beta delta [score_pools score_volume score_liquidity score_stability
    score_market_cap score_holders score_distribution score_security
    Qge_bool] zeta;
  band_cases; cbn [award explain fst snd]; first [lia | exfalso; lra].

Lemma gain_pools_mono d d' st st' :
  dict_get (ad_pools d) 0 <= dict_get (ad_pools d') 0 ->
  gain score_pools d st <= gain score_pools d' st'.
Proof. intros H. mono_solve. Qed.

Lemma gain_volume_mono d d' st st' :
  (dict_get (ad_volume_24h d) 0 <= dict_get (ad_volume_24h d') 0)%Q ->
  gain score_volume d st <= gain score_volume d' st'.
Proof. intros H. mono_solve. Qed.

Lemma gain_liquidity_mono d d' st st' :
  (dict_get (ad_liquidity d) 0 <= dict_get (ad_liquidity d') 0)%Q ->
  gain score_liquidity d st <= gain score_liquidity d' st'.
Proof. intros H. mono_solve. Qed.

Lemma gain_stability_mono d d' st st' :
  (Qabs (dict_get (ad_price_change_24h d') 0) <=
   Qabs (dict_get (ad_price_change_24h d) 0))%Q ->
  gain score_stability d st <= gain score_stability d' st'.
Proof. intros H. mono_solve. Qed.

Lemma gain_market_cap_mono d d' st st' :
  (dict_get (ad_market_cap d) 0 <= dict_get (ad_market_cap d') 0)%Q ->
  gain score_market_cap d st <= gain score_market_cap d' st'.
Proof. intros H. mono_solve. Qed.

Lemma gain_holders_mono d d' st st' :
  dict_get (ad_holders d) 0 <= dict_get (ad_holders d') 0 ->
  gain score_holders d st <= gain score_holders d' st'.
Proof. intros H. mono_solve. Qed.

Lemma gain_distribution_mono d d' st st' :
  (dict_get (ad_top_10_share d') 100 <= dict_get (ad_top_10_share d) 100)%Q ->
  gain score_distribution d st <= gain score_distribution d' st'.
Proof. intros H. mono_solve. Qed.

Lemma gain_security_mono d d' st st' :
  (dict_get (ad_rug_pull_risk d') true = true ->
   dict_get (ad_rug_pull_risk d) true = true) ->
  gain score_security d st <= gain score_security d' st'.
Proof.
  intros H. unfold gain, score_security.
  destruct (dict_get (ad_rug_pull_risk d') true);
    destruct (dict_get (ad_rug_pull_risk d) true); cbn; try lia.
  all: specialize (H eq_refl); discriminate.
Qed.

(** X2: the score is monotone: a record with no fewer pools, holders,
    volume, liquidity and market cap, no larger price swing and top-10
    share, and no risk flag the other lacks, never scores lower. *)
Theorem score_monotone (worse better : analysis_data) :
  dict_get (ad_pools worse) 0 <= dict_get (ad_pools better) 0 ->
  (dict_get (ad_volume_24h worse) 0 <= dict_get (ad_volume_24h better) 0)%Q ->
  (dict_get (ad_liquidity worse) 0 <= dict_get (ad_liquidity better) 0)%Q ->
  (Qabs (dict_get (ad_price_change_24h better) 0) <=
   Qabs (dict_get (ad_price_change_24h worse) 0))%Q ->
  (dict_get (ad_market_cap worse) 0 <= dict_get (ad_market_cap better) 0)%Q ->
  dict_get (ad_holders worse) 0 <= dict_get (ad_holders better) 0 ->
  (dict_get (ad_top_10_share better) 100 <=
   dict_get (ad_top_10_share worse) 100)%Q ->
  (dict_get (ad_rug_pull_risk better) true = true ->
   dict_get (ad_rug_pull_risk worse) true = true) ->
  fst (calculate_score worse) <= fst (calculate_score better).
Proof.
  intros Hp Hv Hl Hs Hm Hh Hd Hr.
  unfold calculate_score. cbn [fst].
  rewrite (tally_sum worse (0, [])), (tally_sum better (0, [])).
  pose proof (gain_pools_mono worse better (0, []) (0, []) Hp).
  pose proof (gain_volume_mono worse better (0, []) (0, []) Hv).
  pose proof (gain_liquidity_mono worse better (0, []) (0, []) Hl).
  pose proof (gain_stability_mono worse better (0, []) (0, []) Hs).
  pose proof (gain_market_cap_mono worse better (0, []) (0, []) Hm).
  pose proof (gain_holders_mono worse better (0, []) (0, []) Hh).
  pose proof (gain_distribution_mono worse better (0, []) (0, []) Hd).
  pose proof (gain_security_mono worse better (0, []) (0, []) Hr).
  lia.
Qed.

(** The worst-case scenario of the specification against its best case. *)
Lemma score_monotone_witness :
  fst (calculate_score scenario_worst) <= fst (calculate_score scenario_best).
Proof.
  apply (score_monotone scenario_worst scenario_best);
    cbn; first [lia | discriminate | reflexivity].
Defined.

Ltac line_solve :=
  cbv beta delta [score_pools score_volume score_liquidity score_stability
    score_market_cap score_holders score_distribution score_security] zeta;
  repeat match goal with
  | |- context [if ?c then _ else _] => destruct c
  end; cbn [award explain snd]; eexists; (split; [reflexivity |]);
  vm_compute; reflexivity.

Lemma pools_line d st :
  exists line, snd (score_pools d st) = snd st ++ [line] /\
               String.prefix "🔢 **Pools**" line = true.
Proof. line_solve. Qed.
Lemma volume_line d st :
  exists line, snd (score_volume d st) = snd st ++ [line] /\
               String.prefix "📊 **Volume 24h**" line = true.
Proof. line_solve. Qed.
Lemma liquidity_line d st :
  exists line, snd (score_liquidity d st) = snd st ++ [line] /\
               String.prefix "💧 **Liquidité**" line = true.
Proof. line_solve. Qed.
Lemma stability_line d st :
  exists line, snd (score_stability d st) = snd st ++ [line] /\
               String.prefix "📈 **Stabilité**" line = true.
Proof. line_solve. Qed.
Lemma market_cap_line d st :
  exists line, snd (score_market_cap d st) = snd st ++ [line] /\
               String.prefix "🏦 **Market Cap**" line = true.
Proof. line_solve. Qed.
Lemma holders_line d st :
  exists line, snd (score_holders d st) = snd st ++ [line] /\
               String.prefix "👥 **Holders**" line = true.
Proof. line_solve. Qed.
Lemma distribution_line d st :
  exists line, snd (score_distribution d st) = snd st ++ [line] /\
               String.prefix "🧮 **Distribution**" line = true.
Proof. line_solve. Qed.
Lemma security_line d st :
  exists line, snd (score_security d st) = snd st ++ [line] /\
               String.prefix "🚨 **Sécurité**" line = true.
Proof. line_solve. Qed.

(** The explanation lines, one per category, in the order of the source. *)
Lemma explanations_in_order (data : analysis_data) :
  Forall2 (fun tag line => String.prefix tag line = true)
    rubric_tags (snd (calculate_score data)).
Proof.
  unfold calculate_score, tally. cbn [snd].
  match goal with
  | |- context [snd (score_security ?d ?st)] =>
      destruct (security_line d st) as (l8 & -> & H8)
  end.
  match goal with
  | |- context [snd (score_distribution ?d ?st)] =>
      destruct (distribution_line d st) as (l7 & -> & H7)
  end.
  match goal with
  | |- context [snd (score_holders ?d ?st)] =>
      destruct (holders_line d st) as (l6 & -> & H6)
  end.
  match goal with
  | |- context [snd (score_market_cap ?d ?st)] =>
      destruct (market_cap_line d st) as (l5 & -> & H5)
  end.
  match goal with
  | |- context [snd (score_stability ?d ?st)] =>
      destruct (stability_line d st) as (l4 & -> & H4)
  end.
  match goal with
  | |- context [snd (score_liquidity ?d ?st)] =>
      destruct (liquidity_line d st) as (l3 & -> & H3)
  end.
  match goal with
  | |- context [snd (score_volume ?d ?st)] =>
      destruct (volume_line d st) as (l2 & -> & H2)
  end.
  match goal with
  | |- context [snd (score_pools ?d ?st)] =>
      destruct (pools_line d st) as (l1 & -> & H1)
  end.
  cbn [snd app]. unfold rubric_tags.
  repeat (apply Forall2_cons; [assumption |]). apply Forall2_nil.
Qed.

(** X4: [calculate_score] emits exactly one explanation line per category,
    eight in all, whichever bands are hit, and in the order of the rubric:
    pools, volume, liquidity, stability, market cap, holders, distribution,
    security. *)
Theorem one_line_per_category (data : analysis_data) :
  List.length (snd (calculate_score data)) = 8%nat /\
  Forall2 (fun tag line => String.prefix tag line = true)
    rubric_tags (snd (calculate_score data)).
Proof.
  split.
  - destruct (explanation_count data) as [H1 H2]. now rewrite H1.
  - apply explanations_in_order.
Qed.

(** ** More on the sources and the aggregator *)

Section MoreSources.
Context {B : Builtins} (net : network).

Lemma metadata_payload_created_at data md :
  metadata_payload data = Val (Some md) -> md_created_at md = JNull.
Proof.
  unfold metadata_payload, exc_bind.
  repeat match goal with
  | |- context [match ?c with Val _ => _ | Raise _ => _ end] =>
      destruct c; try discriminate
  end.
  intros H. injection H as <-. reflexivity.
Qed.

Lemma metadata_of_created_at mint log :
  md_created_at (metadata_of net mint log) = JNull.
Proof.
  unfold metadata_of.
  destruct (outcome_cases metadata_payload
              (next_response net HeliusGetAsset mint log))
    as [-> | (data & md & Hp & ->)]; cbn [or_default]; [reflexivity |].
  eapply metadata_payload_created_at; eauto.
Qed.

(** A run of [analyze_token] on a valid identifier: its value and the
    requests it appends to the log. *)
Lemma analyze_token_trace mint log :
  is_valid_mint mint = true ->
  let d := merged mint (market_of net mint log) (metadata_of net mint log)
             (supply_of net mint log) (holders_of net mint log)
             (risk_of net mint log) in
  let cA := {| call_endpoint := HeliusGetTokenAccounts; call_mint := mint |} in
  let cB := {| call_endpoint := SolscanTokenHolders; call_mint := mint |} in
  let cC := {| call_endpoint := SolanaGetProgramAccounts; call_mint := mint |} in
  analyze_token net mint log =
    (Val (AnalysisDict
            (set_score d (fst (calculate_score d)) (snd (calculate_score d)))),
     log ++
     [{| call_endpoint := DexScreenerTokens; call_mint := mint |};
      {| call_endpoint := HeliusGetAsset; call_mint := mint |};
      {| call_endpoint := SolanaGetTokenSupply; call_mint := mint |}] ++
     (if hi_holders (strategy_A net mint log) >? 0 then [cA]
      else if hi_holders (strategy_C net mint log) >? 0 then [cA; cC]
      else if hi_holders (strategy_B net mint log) >? 0 then [cA; cC; cB]
      else [cA; cC; cB; cC]) ++
     [{| call_endpoint := SolanaGetAccountInfo; call_mint := mint |}]).
Proof.
  intros Hvalid d cA cB cC.
  destruct (analyze_token_run net mint log Hvalid) as [calls Hrun].
  rewrite assemble_values in Hrun. cbv zeta in Hrun. fold d in Hrun.
  rewrite Hrun. f_equal.
  (* the log: follow the run once more, for its calls *)
  assert (Hsnd : snd (analyze_token net mint log) = log ++ calls)
    by now rewrite Hrun.
  rewrite <- Hsnd. clear Hrun Hsnd calls.
  unfold analyze_token. rewrite Hvalid. cbn [negb].
  unfold try_except, bind, settle, lift.
  rewrite get_dexscreener_data_run, get_token_metadata_run,
    get_token_supply_info_run.
  set (l3 := ((log ++ _) ++ _) ++ _).
  assert (Hfresh : forall ep,
            ep <> DexScreenerTokens -> ep <> HeliusGetAsset ->
            ep <> SolanaGetTokenSupply ->
            next_response net ep mint l3 = next_response net ep mint log).
  { intros ep H1 H2 H3. unfold l3. rewrite <- !app_assoc.
    apply next_response_app_other.
    repeat (apply Forall_cons || apply Forall_nil); cbn; congruence. }
  pose proof (get_holders_info_calls net mint l3) as Hcalls.
  pose proof (get_holders_info_value net mint l3) as Hval.
  cbv zeta in Hcalls. fold cA cB cC in Hcalls.
  unfold strategy_A, strategy_B, strategy_C in Hcalls.
  rewrite !Hfresh in Hcalls by discriminate.
  fold (strategy_A net mint log) (strategy_B net mint log)
    (strategy_C net mint log) in Hcalls.
  destruct (get_holders_info net mint l3) as [r l4].
  cbn [fst snd] in Hcalls, Hval. subst r l4.
  rewrite check_rug_pull_risk_run. cbn [fst snd].
  rewrite assemble_values. cbn [snd].
  unfold l3. rewrite <- !app_assoc. reflexivity.
Qed.

End MoreSources.

(** X7: the creation date is never filled in: [get_token_metadata] returns
    [created_at = None] on every path, and so does every analysis
    [analyze_token] returns. *)
Theorem created_at_is_never_set {B : Builtins} (net : network) (mint : string)
    (log : list call) :
  (exists md calls,
     get_token_metadata net mint log = (Val md, calls) /\
     md_created_at md = JNull) /\
  (forall d calls,
     analyze_token net mint log = (Val (AnalysisDict d), calls) ->
     ad_created_at d = Some JNull).
Proof.
  split.
  - rewrite get_token_metadata_run. do 2 eexists. split; [reflexivity |].
    apply metadata_of_created_at.
  - intros d calls Hrun.
    destruct (is_valid_mint mint) eqn:Hvalid.
    + rewrite (analyze_token_trace net mint log Hvalid) in Hrun. cbv zeta in Hrun.
      injection Hrun as <- _. cbn [set_score merged ad_created_at].
      now rewrite metadata_of_created_at.
    + unfold analyze_token in Hrun. rewrite Hvalid in Hrun. discriminate.
Qed.

(** X8: for a valid identifier [analyze_token] issues, in this order, the
    DexScreener, getAsset and getTokenSupply requests, then one to four
    holder requests beginning with getTokenAccounts, then getAccountInfo:
    five to eight requests, each for the identifier given. *)
Theorem analyze_token_requests {B : Builtins} (net : network) (mint : string)
    (log : list call) :
  is_valid_mint mint = true ->
  exists holder_calls,
    snd (analyze_token net mint log) =
      log ++
      [{| call_endpoint := DexScreenerTokens; call_mint := mint |};
       {| call_endpoint := HeliusGetAsset; call_mint := mint |};
       {| call_endpoint := SolanaGetTokenSupply; call_mint := mint |}] ++
      holder_calls ++
      [{| call_endpoint := SolanaGetAccountInfo; call_mint := mint |}] /\
    (1 <= List.length holder_calls <= 4)%nat /\
    hd_error holder_calls =
      Some {| call_endpoint := HeliusGetTokenAccounts; call_mint := mint |} /\
    Forall (fun c => call_mint c = mint /\
                     (call_endpoint c = HeliusGetTokenAccounts \/
                      call_endpoint c = SolscanTokenHolders \/
                      call_endpoint c = SolanaGetProgramAccounts))
      holder_calls.
Proof.
  intros Hvalid.
  rewrite (analyze_token_trace net mint log Hvalid). cbv zeta. cbn [snd].
  eexists. split; [reflexivity |].
  destruct (hi_holders (strategy_A net mint log) >? 0);
    [| destruct (hi_holders (strategy_C net mint log) >? 0);
       [| destruct (hi_holders (strategy_B net mint log) >? 0)]];
    (split; [cbn; lia |]); (split; [reflexivity |]);
    repeat (apply Forall_cons || apply Forall_nil); cbn; auto.
Qed.

(** On the healthy sample the indexer answers, so five requests go out. *)
Lemma analyze_token_requests_witness :
  exists holder_calls,
    snd (analyze_token (B := Decimal.builtins) net_healthy usdc []) =
      [] ++
      [{| call_endpoint := DexScreenerTokens; call_mint := usdc |};
       {| call_endpoint := HeliusGetAsset; call_mint := usdc |};
       {| call_endpoint := SolanaGetTokenSupply; call_mint := usdc |}] ++
      holder_calls ++
      [{| call_endpoint := SolanaGetAccountInfo; call_mint := usdc |}] /\
    (1 <= List.length holder_calls <= 4)%nat /\
    hd_error holder_calls =
      Some {| call_endpoint := HeliusGetTokenAccounts; call_mint := usdc |} /\
    Forall (fun c => call_mint c = usdc /\
                     (call_endpoint c = HeliusGetTokenAccounts \/
                      call_endpoint c = SolscanTokenHolders \/
                      call_endpoint c = SolanaGetProgramAccounts))
      holder_calls.
Proof.
  exact (analyze_token_requests (B := Decimal.builtins) net_healthy usdc []
           eq_refl).
Defined.

(** ** The range of the top-10 share *)








Section ShareRange.
Context {B : Builtins} (net : network).







End ShareRange.

(** ** The report: [format_number] and [format_analysis_message] *)

Lemma Qfloor_eq (n : Z) (x : Q) :
  (inject_Z n <= x)%Q -> (x < inject_Z n + 1)%Q -> Qfloor x = n.
Proof.
  intros Hlo Hhi.
  pose proof (Qfloor_le x) as H1. pose proof (Qlt_floor x) as H2.
  rewrite inject_Z_plus in H2. change (inject_Z 1) with 1%Q in H2.
  assert (Ha : (inject_Z n < inject_Z (Qfloor x + 1))%Q).
  { rewrite inject_Z_plus. change (inject_Z 1) with 1%Q. lra. }
  assert (Hb : (inject_Z (Qfloor x) < inject_Z (n + 1))%Q).
  { rewrite inject_Z_plus. change (inject_Z 1) with 1%Q. lra. }
  rewrite <- Zlt_Qlt in Ha, Hb. lia.
Qed.

(** The upper half of the unit above an odd integer rounds up, the tie
    included. *)
Lemma round_half_even_top (n : Z) (x : Q) :
  Z.even n = false ->
  (inject_Z n + (1 # 2) <= x)%Q -> (x < inject_Z n + 1)%Q ->
  Py.round_half_even x = n + 1.
Proof.
  intros Hodd Hlo Hhi. unfold Py.round_half_even.
  rewrite (Qfloor_eq n x) by lra.
  destruct (x - inject_Z n ?= 1 # 2)%Q eqn:E.
  - now rewrite Hodd.
  - apply Qlt_alt in E. lra.
  - reflexivity.
Qed.

(** The lower half of the unit above an even integer rounds down, the tie
    included. *)
Lemma round_half_even_bottom (n : Z) (x : Q) :
  Z.even n = true ->
  (inject_Z n <= x)%Q -> (x <= inject_Z n + (1 # 2))%Q ->
  Py.round_half_even x = n.
Proof.
  intros Heven Hlo Hhi. unfold Py.round_half_even.
  rewrite (Qfloor_eq n x) by lra.
  destruct (x - inject_Z n ?= 1 # 2)%Q eqn:E.
  - now rewrite Heven.
  - reflexivity.
  - apply Qgt_alt in E. lra.
Qed.

Lemma Qge_bool_true x y : Qge_bool x y = true <-> (y <= x)%Q.
Proof. unfold Qge_bool. apply Qle_bool_iff. Qed.

Lemma Qge_bool_false_lt x y : (x < y)%Q -> Qge_bool x y = false.
Proof.
  intros H. destruct (Qge_bool x y) eqn:E; [| reflexivity].
  apply Qge_bool_true in E. lra.
Qed.

Lemma Qgt_bool_false x y : (x <= y)%Q -> Py.Qgt_bool x y = false.
Proof.
  intros H. destruct (Py.Qgt_bool x y) eqn:E; [| reflexivity].
  apply Qgt_bool_true in E. lra.
Qed.

(** Two decimals of a number just under a thousand. *)
Lemma fixed2_just_under_1000 (x : Q) :
  (999995 # 1000 <= x)%Q -> (x < 1000)%Q -> Fmt.fixed 2 x = "1000.00".
Proof.
  intros Hlo Hhi. unfold Fmt.fixed, Fmt.fixed_with. cbv zeta.
  rewrite (Qgt_bool_false 0 x) by lra.
  assert (Hm : Py.round_half_even (Qabs x * inject_Z (10 ^ Z.of_nat 2)) = 100000).
  { change (inject_Z (10 ^ Z.of_nat 2)) with 100%Q.
    rewrite (round_half_even_comp (Qabs x * 100) (x * 100))
      by (rewrite (Qabs_pos x) by lra; reflexivity).
    change 100000 with (99999 + 1).
    apply round_half_even_top; [reflexivity | |];
      change (inject_Z 99999) with 99999%Q; lra. }
  rewrite Hm. reflexivity.
Qed.

(** X10: [format_number] picks the unit before it rounds, so a number
    within half a hundredth of the next unit is printed as 1000.00 of the
    smaller one: 999 995 up to a million is "1000.00K", not "1.00M". *)
Theorem format_number_rounds_after_banding (num : Q) :
  ((999995 # 1000 <= num)%Q -> (num < 1000)%Q ->
   format_number num = "1000.00") /\
  ((999995 <= num)%Q -> (num < 1000000)%Q ->
   format_number num = "1000.00K") /\
  ((999995000 <= num)%Q -> (num < 1000000000)%Q ->
   format_number num = "1000.00M").
Proof.
  unfold format_number. repeat split; intros Hlo Hhi.
  - rewrite !Qge_bool_false_lt by lra.
    apply fixed2_just_under_1000; lra.
  - rewrite !(Qge_bool_false_lt num 1000000000), (Qge_bool_false_lt num 1000000)
      by lra.
    assert (H : Qge_bool num 1000 = true) by (apply Qge_bool_true; lra).
    rewrite H, fixed2_just_under_1000; [reflexivity | |].
    + apply Qle_shift_div_l; [reflexivity | lra].
    + apply Qlt_shift_div_r; [reflexivity | lra].
  - rewrite (Qge_bool_false_lt num 1000000000) by lra.
    assert (H : Qge_bool num 1000000 = true) by (apply Qge_bool_true; lra).
    rewrite H, fixed2_just_under_1000; [reflexivity | |].
    + apply Qle_shift_div_l; [reflexivity | lra].
    + apply Qlt_shift_div_r; [reflexivity | lra].
Qed.

Example format_number_samples :
  format_number 999995 = "1000.00K" /\
  format_number 1000000 = "1.00M" /\
  format_number (12345678 # 10) = "1.23M" /\
  format_number (-5000) = "-5000.00".
Proof. repeat split; reflexivity. Qed.

(** *** Text *)

Lemma append_assoc (a b c : string) : ((a ++ b) ++ c = a ++ b ++ c)%string.
Proof. induction a as [| ch a IH]; cbn; [reflexivity | now rewrite IH]. Qed.

Lemma append_nil_r (a : string) : (a ++ "" = a)%string.
Proof. induction a as [| ch a IH]; cbn; [reflexivity | now rewrite IH]. Qed.

Lemma appears_skip (piece a text : string) :
  appears piece text -> appears piece (a ++ text).
Proof.
  intros (before & after & ->). exists (a ++ before)%string, after.
  now rewrite append_assoc.
Qed.

Lemma appears_before (piece text b : string) :
  appears piece text -> appears piece (text ++ b).
Proof.
  intros (before & after & ->). exists before, (after ++ b)%string.
  now rewrite !append_assoc.
Qed.

(** Walk down a chain of appended pieces to the one looked for. *)
Ltac find_piece :=
  first [ exists EmptyString; eexists; rewrite ?append_assoc;
          cbn [append Fmt.nl]; reflexivity
        | apply appears_skip; find_piece ].

Section ReportFacts.
Context {Tx : Strings}.

Lemma add_explanations_appears piece message explanations :
  appears piece message -> appears piece (add_explanations message explanations).
Proof.
  unfold add_explanations. revert message.
  induction explanations as [| e rest IH]; intros message H; cbn [fold_left].
  - exact H.
  - apply IH. now apply appears_before.
Qed.

(** What is in the main message is in the report. *)
Lemma report_appears piece data created_at report :
  shown_created_at data = Val created_at ->
  format_analysis_message (AnalysisDict data) = Val report ->
  appears piece (main_message data created_at) ->
  appears piece report.
Proof.
  intros Hc Hr H. unfold format_analysis_message in Hr.
  rewrite Hc in Hr. cbn [exc_bind] in Hr. injection Hr as <-.
  apply appears_before. now apply add_explanations_appears.
Qed.

Lemma main_message_created_at data created_at :
  appears (Fmt.nl ++ "🗓️ Créé le       : " ++ str created_at ++ Fmt.nl)
    (main_message data created_at).
Proof.
  unfold main_message. cbv zeta. destruct (score_evaluation _) as [emoji label].
  find_piece.
Qed.

Lemma main_message_price data created_at :
  appears (Fmt.nl ++ "💲 Prix (USD)    : $" ++
           Fmt.fixed 6 (dict_get (ad_price_usd data) 0%Q) ++ Fmt.nl)
    (main_message data created_at).
Proof.
  unfold main_message. cbv zeta. destruct (score_evaluation _) as [emoji label].
  find_piece.
Qed.

Lemma main_message_rug data created_at :
  appears (Fmt.nl ++ "🚨 Rug-pull      : " ++ rug_indicator_of data ++ Fmt.nl)
    (main_message data created_at).
Proof.
  unfold main_message. cbv zeta. destruct (score_evaluation _) as [emoji label].
  find_piece.
Qed.

Lemma main_message_top_10 data created_at :
  appears (Fmt.nl ++ "🧮 Top 10 share   : " ++
           Fmt.fixed 1 (dict_get (ad_top_10_share data) 0%Q) ++ "%" ++ Fmt.nl)
    (main_message data created_at).
Proof.
  unfold main_message. cbv zeta. destruct (score_evaluation _) as [emoji label].
  find_piece.
Qed.

Lemma shown_created_at_none data :
  ad_created_at data = Some JNull -> shown_created_at data = Val JNull.
Proof. intros H. unfold shown_created_at. now rewrite H. Qed.

Lemma fixed6_small (x : Q) :
  (0 <= x)%Q -> (x <= 5 # 10000000)%Q -> Fmt.fixed 6 x = "0.000000".
Proof.
  intros Hlo Hhi. unfold Fmt.fixed, Fmt.fixed_with. cbv zeta.
  rewrite (Qgt_bool_false 0 x) by lra.
  assert (Hm : Py.round_half_even (Qabs x * inject_Z (10 ^ Z.of_nat 6)) = 0).
  { change (inject_Z (10 ^ Z.of_nat 6)) with 1000000%Q.
    rewrite (round_half_even_comp (Qabs x * 1000000) (x * 1000000))
      by (rewrite (Qabs_pos x) by lra; reflexivity).
    apply round_half_even_bottom; [reflexivity | |];
      change (inject_Z 0) with 0%Q; lra. }
  rewrite Hm. reflexivity.
Qed.

Lemma security_line_without_flag data st :
  ad_rug_pull_risk data = None ->
  snd (score_security data st) =
    snd st ++ ["🚨 **Sécurité** : +0/2 pts (autorités actives = risque élevé)"].
Proof. intros H. unfold score_security. now rewrite H. Qed.

Lemma distribution_line_without_share data st :
  ad_top_10_share data = None ->
  snd (score_distribution data st) =
    snd st ++ ["🧮 **Distribution** : +0/2 pts (>50% = très centralisé)"].
Proof. intros H. unfold score_distribution. now rewrite H. Qed.

End ReportFacts.

(** The analysis and its report, for any identifier and any network. *)
Lemma analysis_report {B : Builtins} {Tx : Strings} (net : network)
    (mint : string) (log : list call) :
  exists result report,
    fst (analyze_token net mint log) = Val result /\
    format_analysis_message result = Val report /\
    (is_valid_mint mint = false ->
     report = "❌ **Erreur**: Mint address invalide") /\
    (is_valid_mint mint = true ->
     appears (Fmt.nl ++ "🗓️ Créé le       : None" ++ Fmt.nl) report).
Proof.
  destruct (is_valid_mint mint) eqn:Hvalid.
  - rewrite (analyze_token_trace net mint log Hvalid). cbv zeta. cbn [fst].
    set (d := merged _ _ _ _ _ _).
    set (d' := set_score d _ _).
    assert (Hc : shown_created_at d' = Val JNull).
    { apply shown_created_at_none. unfold d', d.
      cbn [set_score merged ad_created_at]. now rewrite metadata_of_created_at. }
    eexists. eexists. split; [reflexivity |].
    split; [unfold format_analysis_message; rewrite Hc; reflexivity |].
    split; [discriminate |]. intros _.
    apply appears_before, add_explanations_appears.
    exact (main_message_created_at d' JNull).
  - unfold analyze_token. rewrite Hvalid. cbn [negb ret fst].
    eexists. eexists. split; [reflexivity |].
    split; [reflexivity |].
    split; [reflexivity | discriminate].
Qed.


(** X12: the two readers of the dictionary disagree on missing keys.
    Without ["rug_pull_risk"] the report says there is no rug-pull risk while
    the score counts one; without ["top_10_share"] the report shows 0.0%
    while the score counts a share above 50%. *)
Theorem display_defaults_differ_from_scoring {Tx : Strings}
    (data : analysis_data) (report : string) :
  format_analysis_message (AnalysisDict data) = Val report ->
  (ad_rug_pull_risk data = None ->
   appears (Fmt.nl ++ "🚨 Rug-pull      : ✅ Non" ++ Fmt.nl) report /\
   In "🚨 **Sécurité** : +0/2 pts (autorités actives = risque élevé)"
     (snd (calculate_score data))) /\
  (ad_top_10_share data = None ->
   appears (Fmt.nl ++ "🧮 Top 10 share   : 0.0%" ++ Fmt.nl) report /\
   In "🧮 **Distribution** : +0/2 pts (>50% = très centralisé)"
     (snd (calculate_score data))).
Proof.
  intros Hr.
  assert (Hc : exists created_at, shown_created_at data = Val created_at).
  { unfold format_analysis_message in Hr.
    destruct (shown_created_at data); [eauto | discriminate]. }
  destruct Hc as [created_at Hc].
  split; intros Hnone.
  - split.
    + apply (report_appears _ data created_at report Hc Hr).
      pose proof (main_message_rug data created_at) as H.
      unfold rug_indicator_of in H. rewrite Hnone in H. exact H.
    + unfold calculate_score, tally. cbn [snd].
      rewrite security_line_without_flag by exact Hnone.
      apply in_or_app. right. now left.
  - split.
    + apply (report_appears _ data created_at report Hc Hr).
      pose proof (main_message_top_10 data created_at) as H.
      rewrite Hnone in H. exact H.
    + unfold calculate_score, tally. cbn [snd].
      match goal with
      | |- context [snd (score_security ?d ?st)] =>
          destruct (security_line d st) as (l8 & -> & _)
      end.
      rewrite distribution_line_without_share by exact Hnone.
      apply in_or_app. left. apply in_or_app. right. now left.
Qed.

Lemma display_defaults_differ_from_scoring_witness :
  exists report,
    format_analysis_message (Tx := Plain.strings) (AnalysisDict empty_data) =
      Val report /\
    appears (Fmt.nl ++ "🚨 Rug-pull      : ✅ Non" ++ Fmt.nl) report /\
    In "🚨 **Sécurité** : +0/2 pts (autorités actives = risque élevé)"
      (snd (calculate_score empty_data)) /\
    appears (Fmt.nl ++ "🧮 Top 10 share   : 0.0%" ++ Fmt.nl) report /\
    In "🧮 **Distribution** : +0/2 pts (>50% = très centralisé)"
      (snd (calculate_score empty_data)).
Proof.
  eexists. split; [reflexivity |].
  destruct (display_defaults_differ_from_scoring (Tx := Plain.strings)
              empty_data _ eq_refl) as [H1 H2].
  destruct (H1 eq_refl) as [Ha Hb]. destruct (H2 eq_refl) as [Hc Hd].
  repeat split; assumption.
Defined.

(** X13: the price is printed with six decimals, so every price from 0 to
    0.0000005 USD appears in the report as $0.000000. *)
Theorem tiny_price_prints_as_zero {Tx : Strings} (data : analysis_data)
    (report : string) :
  format_analysis_message (AnalysisDict data) = Val report ->
  (0 <= dict_get (ad_price_usd data) 0)%Q ->
  (dict_get (ad_price_usd data) 0 <= 5 # 10000000)%Q ->
  appears (Fmt.nl ++ "💲 Prix (USD)    : $0.000000" ++ Fmt.nl) report.
Proof.
  intros Hr Hlo Hhi.
  assert (Hc : exists created_at, shown_created_at data = Val created_at).
  { unfold format_analysis_message in Hr.
    destruct (shown_created_at data); [eauto | discriminate]. }
  destruct Hc as [created_at Hc].
  apply (report_appears _ data created_at report Hc Hr).
  pose proof (main_message_price data created_at) as H.
  rewrite (fixed6_small _ Hlo Hhi) in H. exact H.
Qed.

Lemma tiny_price_prints_as_zero_witness :
  exists report,
    format_analysis_message (Tx := Plain.strings) (AnalysisDict dust_priced) =
      Val report /\
    appears (Fmt.nl ++ "💲 Prix (USD)    : $0.000000" ++ Fmt.nl) report.
Proof.
  eexists. split; [reflexivity |].
  apply (tiny_price_prints_as_zero (Tx := Plain.strings) dust_priced _ eq_refl);
    cbn; lra.
Defined.
(** ** The handlers of [TelegramBot] *)

Section Handlers.
Context {B : Builtins} {Tx : Strings} (net : network) (tg : telegram).

Lemma analyze_command_run mint rest w result report :
  fst (analyze_token net mint (requests w)) = Val result ->
  format_analysis_message result = Val report ->
  analyze_command net tg (mint :: rest) w =
    let n := List.length (chat w) in
    let sent := snd (analyze_token net mint (requests w)) in
    match tg n (ReplyText loading_text) with
    | Some text =>
        (Failed (TelegramError text),
         {| requests := requests w; chat := chat w ++ [ReplyText loading_text] |})
    | None =>
        match tg (S n) (EditText n report) with
        | None =>
            (Done tt,
             {| requests := sent;
                chat := chat w ++ [ReplyText loading_text; EditText n report] |})
        | Some text =>
            let failure := EditText n (failure_text (TelegramError text)) in
            (answer tg (S (S n)) failure,
             {| requests := sent;
                chat := chat w ++ [ReplyText loading_text; EditText n report;
                                   failure] |})
        end
    end.
Proof.
  intros Hresult Hreport. cbv zeta.
  unfold analyze_command, bot_bind, reply_text, api.
  destruct (tg (List.length (chat w)) (ReplyText loading_text)) as [text |];
    [reflexivity |].
  unfold bot_try, bot_bind, await, edit_text, bot_bind, api, lift, bot_ret, answer.
  cbn [requests chat].
  destruct (analyze_token net mint (requests w)) as [r sent].
  cbn [fst snd] in *. subst r. cbn [requests chat].
  rewrite Hreport. cbn [requests chat].
  rewrite !length_app. cbn [List.length].
  replace (List.length (chat w) + 1)%nat with (S (List.length (chat w))) by lia.
  destruct (tg (S (List.length (chat w))) _) as [text |].
  - cbn [requests chat]. rewrite !length_app. cbn [List.length].
    replace (List.length (chat w) + 1 + 1)%nat
      with (S (S (List.length (chat w)))) by lia.
    rewrite <- !app_assoc. cbn [app].
    destruct (tg (S (S (List.length (chat w)))) _); reflexivity.
  - rewrite <- !app_assoc. reflexivity.
Qed.

(** The reply to a text that is not an identifier. *)
Lemma unrecognised_run w :
  (_ <~ reply_text tg unrecognised_text ;; bot_ret tt) w =
    (answer tg (List.length (chat w)) (ReplyText unrecognised_text),
     {| requests := requests w; chat := chat w ++ [ReplyText unrecognised_text] |}).
Proof.
  unfold bot_bind, reply_text, api, answer, bot_ret.
  destruct (tg _ _); reflexivity.
Qed.

(** The test of [handle_message] is [is_valid_mint] on the stripped text. *)
Lemma handle_message_test (s : string) :
  is_valid_mint s =
    if (Z.of_nat (String.length s) >=? 32) && (Z.of_nat (String.length s) <=? 44)
    then match b58decode s with Some _ => true | None => false end
    else false.
Proof.
  unfold is_valid_mint.
  destruct (String.eqb s "") eqn:E.
  - apply String.eqb_eq in E. subst s. reflexivity.
  - cbn [orb].
    destruct (Z.of_nat (String.length s) <? 32) eqn:E1;
      destruct (Z.of_nat (String.length s) >? 44) eqn:E2;
      destruct (Z.of_nat (String.length s) >=? 32) eqn:E3;
      destruct (Z.of_nat (String.length s) <=? 44) eqn:E4;
      cbn [orb andb]; try reflexivity; exfalso; lia.
Qed.

Lemma handle_message_run text w :
  handle_message net tg text w =
    if is_valid_mint (strip text) then
      match analyze_command net tg [strip text] w with
      | (Done a, w') => (Done a, w')
      | (Failed _, w') =>
          (answer tg (List.length (chat w')) (ReplyText unrecognised_text),
           {| requests := requests w';
              chat := chat w' ++ [ReplyText unrecognised_text] |})
      end
    else
      (answer tg (List.length (chat w)) (ReplyText unrecognised_text),
       {| requests := requests w; chat := chat w ++ [ReplyText unrecognised_text] |}).
Proof.
  unfold handle_message. cbv zeta. rewrite (handle_message_test (strip text)).
  destruct ((Z.of_nat (String.length (strip text)) >=? 32) &&
            (Z.of_nat (String.length (strip text)) <=? 44));
    [| apply unrecognised_run].
  unfold bot_try at 1. unfold bot_bind at 1. unfold await, lift.
  destruct (b58decode (strip text)).
  - destruct w as [rq ch]. cbn [requests chat].
    destruct (analyze_command net tg [strip text] _) as [[a | e] w'];
      [reflexivity | apply unrecognised_run].
  - destruct w as [rq ch]. cbn [requests chat]. apply unrecognised_run.
Qed.

End Handlers.

(** X14: the conversation of [/analyse].  Without an argument it is one
    reply, the usage text, and no request.  With one it is the loading
    reply, then the requests of [analyze_token] (none for an identifier that
    is not valid, whose report is the error line), then an edit of the
    loading message with the report; a second edit, with the failure text
    and the Bot API's own error as details, follows only when the Bot API
    refuses the first.  Nothing else is sent, and the handler raises only
    what the Bot API raised on its last call. *)
Theorem analyze_command_conversation {B : Builtins} {Tx : Strings}
    (net : network) (tg : telegram) (args : list string) (w : world) :
  (args = [] ->
   analyze_command net tg args w =
     (answer tg (List.length (chat w)) (ReplyText usage_text),
      {| requests := requests w; chat := chat w ++ [ReplyText usage_text] |})) /\
  (forall mint rest, args = mint :: rest ->
   exists report,
     (is_valid_mint mint = false ->
      report = "❌ **Erreur**: Mint address invalide" /\
      snd (analyze_token net mint (requests w)) = requests w) /\
     analyze_command net tg args w =
       let n := List.length (chat w) in
       let sent := snd (analyze_token net mint (requests w)) in
       match tg n (ReplyText loading_text) with
       | Some text =>
           (Failed (TelegramError text),
            {| requests := requests w;
               chat := chat w ++ [ReplyText loading_text] |})
       | None =>
           match tg (S n) (EditText n report) with
           | None =>
               (Done tt,
                {| requests := sent;
                   chat := chat w ++ [ReplyText loading_text; EditText n report] |})
           | Some text =>
               let failure := EditText n (failure_text (TelegramError text)) in
               (answer tg (S (S n)) failure,
                {| requests := sent;
                   chat := chat w ++ [ReplyText loading_text; EditText n report;
                                      failure] |})
           end
       end).
Proof.
  split.
  - intros ->. unfold analyze_command, bot_bind, reply_text, api, answer, bot_ret.
    destruct (tg _ _); reflexivity.
  - intros mint rest ->.
    destruct (analysis_report net mint (requests w))
      as (result & report & Hresult & Hreport & Hinvalid & _).
    exists report. split.
    + intros Hv. split; [now apply Hinvalid |].
      unfold analyze_token. now rewrite Hv.
    + now apply analyze_command_run with (result := result).
Qed.

(** X15: a plain message is analysed exactly when [is_valid_mint] accepts
    its stripped text.  Any other text costs one reply, the "not recognised"
    text, and no request.  An accepted text is handed to [/analyse]; when
    that handler raises, the exception is dropped and the "not recognised"
    reply is sent after what the handler had sent. *)
Theorem handle_message_gate {B : Builtins} {Tx : Strings}
    (net : network) (tg : telegram) (text : string) (w : world) :
  (is_valid_mint (strip text) = false ->
   handle_message net tg text w =
     (answer tg (List.length (chat w)) (ReplyText unrecognised_text),
      {| requests := requests w;
         chat := chat w ++ [ReplyText unrecognised_text] |})) /\
  (is_valid_mint (strip text) = true ->
   (forall w', analyze_command net tg [strip text] w = (Done tt, w') ->
               handle_message net tg text w = (Done tt, w')) /\
   (forall e w', analyze_command net tg [strip text] w = (Failed e, w') ->
                 handle_message net tg text w =
                   (answer tg (List.length (chat w')) (ReplyText unrecognised_text),
                    {| requests := requests w';
                       chat := chat w' ++ [ReplyText unrecognised_text] |}))).
Proof.
  rewrite handle_message_run. split; intros ->; [reflexivity |].
  split; [intros w' -> | intros e w' ->]; reflexivity.
Qed.

(** X16: a valid identifier can be answered with "not recognised".  When the
    Bot API accepts replies and refuses edits, a plain message holding a valid
    identifier gets the loading reply, the two refused edits (the report, then
    the failure text) and, because [handle_message] drops the exception of
    [/analyse], the "not recognised" reply; the handler then returns
    normally, where [/analyse] itself raises. *)
Theorem valid_mint_answered_as_unrecognised {B : Builtins} {Tx : Strings}
    (net : network) (tg : telegram) (text : string) (w : world) :
  is_valid_mint (strip text) = true ->
  (forall k reply, tg k (ReplyText reply) = None) ->
  (forall k message edit, tg k (EditText message edit) <> None) ->
  exists report failure,
    handle_message net tg text w =
      (Done tt,
       {| requests := snd (analyze_token net (strip text) (requests w));
          chat := chat w ++
                  [ReplyText loading_text;
                   EditText (List.length (chat w)) report;
                   EditText (List.length (chat w)) failure;
                   ReplyText unrecognised_text] |}) /\
    exists e, fst (analyze_command net tg [strip text] w) = Failed e.
Proof.
  intros Hvalid Hreply Hedit.
  destruct (analysis_report net (strip text) (requests w))
    as (result & report & Hresult & Hreport & _ & _).
  pose proof (analyze_command_run net tg (strip text) [] w result report
                Hresult Hreport) as Hrun.
  cbv zeta in Hrun. rewrite Hreply in Hrun.
  destruct (tg (S (List.length (chat w)))
              (EditText (List.length (chat w)) report)) as [refusal |] eqn:E1;
    [| now apply Hedit in E1].
  unfold answer in Hrun.
  destruct (tg (S (S (List.length (chat w))))
              (EditText (List.length (chat w))
                 (failure_text (TelegramError refusal)))) as [refusal' |] eqn:E2;
    [| now apply Hedit in E2].
  exists report, (failure_text (TelegramError refusal)). split.
  - rewrite handle_message_run, Hvalid, Hrun. cbn [requests chat].
    unfold answer. rewrite Hreply, <- app_assoc. reflexivity.
  - rewrite Hrun. eexists. reflexivity.
Qed.

Lemma valid_mint_answered_as_unrecognised_witness :
  exists report failure,
    handle_message (B := Decimal.builtins) (Tx := Plain.strings)
        net_healthy tg_no_edit pasted_usdc quiet =
      (Done tt,
       {| requests := snd (analyze_token (B := Decimal.builtins) net_healthy
                             (strip (Strings := Plain.strings) pasted_usdc)
                             (requests quiet));
          chat := chat quiet ++
                  [ReplyText loading_text;
                   EditText (List.length (chat quiet)) report;
                   EditText (List.length (chat quiet)) failure;
                   ReplyText unrecognised_text] |}) /\
    exists e,
      fst (analyze_command (B := Decimal.builtins) (Tx := Plain.strings)
             net_healthy tg_no_edit
             [strip (Strings := Plain.strings) pasted_usdc] quiet) = Failed e.
Proof.
  apply (valid_mint_answered_as_unrecognised (B := Decimal.builtins)
           (Tx := Plain.strings) net_healthy tg_no_edit pasted_usdc quiet).
  - vm_compute. reflexivity.
  - intros k reply. reflexivity.
  - intros k message edit. discriminate.
Defined.

(** The same message when the Bot API works: the loading reply, then the
    report in its place, after the five requests of a healthy run. *)
Example pasted_mint_is_analysed :
  exists report,
    handle_message (B := Decimal.builtins) (Tx := Plain.strings)
        net_healthy tg_up pasted_usdc quiet =
      (Done tt,
       {| requests :=
            [{| call_endpoint := DexScreenerTokens; call_mint := usdc |};
             {| call_endpoint := HeliusGetAsset; call_mint := usdc |};
             {| call_endpoint := SolanaGetTokenSupply; call_mint := usdc |};
             {| call_endpoint := HeliusGetTokenAccounts; call_mint := usdc |};
             {| call_endpoint := SolanaGetAccountInfo; call_mint := usdc |}];
          chat := [ReplyText loading_text; EditText 0 report] |}) /\
    String.prefix "💡 *Analyse Solana* — `USDC` (USD Coin)" report = true.
Proof. eexists. split; vm_compute; reflexivity. Qed.
